(** * Settings persistence of File Merger Pro

    A shallow embedding of [core/settings_manager.py]: the [UserSettings]
    dataclass and the [SettingsManager] operations (load, save, reset,
    backup, restore, export, import, get, set, validate), followed by the
    properties of the settings store.

    Python objects are modelled by their attribute dictionary, a finite map
    from attribute names to values; the file system, the wall clock and the
    I/O failures the process may meet are explicit components of the state
    that every operation threads.  Logging has no effect on any of these and
    is left out. *)

From Stdlib Require Import ZArith String Ascii List Bool Lia.
From stdpp Require Import base option gmap strings list fin_maps.

Local Open Scope string_scope.
Local Open Scope Z_scope.

(** ** Python values *)

#[local] Set Warnings "-register-all".

(** The values a settings attribute or a decoded JSON document can hold.
    [VObject] stands for any object the [json] encoder rejects (a set, a
    bytes object, ...).  Floating point numbers are outside the embedding. *)
Inductive value : Type :=
| VNone
| VBool (b : bool)
| VInt (n : Z)
| VStr (s : string)
| VList (l : list value)
| VDict (kvs : list (string * value))
| VObject (tag : string).

(** [json.dump] accepts a value iff no part of it is a foreign object. *)
Fixpoint json_serializable (v : value) : bool :=
  match v with
  | VList l => forallb json_serializable l
  | VDict kvs => forallb (fun kv => json_serializable (snd kv)) kvs
  | VObject _ => false
  | _ => true
  end.

Inductive exn : Type :=
| TypeError
| AttributeError
| FileNotFoundError
| OSError
| JSONDecodeError.

Inductive outcome (A : Type) : Type :=
| Ret (a : A)
| Raise (e : exn).
Arguments Ret {A} a.
Arguments Raise {A} e.

(** ** The clock: [datetime.now()] *)

Record datetime : Type := MkDatetime {
  year : nat; month : nat; day : nat;
  hour : nat; minute : nat; second : nat; microsecond : nat
}.

Definition digit (n : nat) : ascii :=
  ascii_of_nat (48 + Nat.modulo n 10).

(** [zpad w n]: the last [w] decimal digits of [n], zero padded. *)
Fixpoint zpad (w n : nat) : string :=
  match w with
  | O => ""
  | S w' => zpad w' (Nat.div n 10) +:+ String (digit n) ""
  end.

(** [datetime.isoformat()]: the fraction is printed only when it is not 0. *)
Definition isoformat (d : datetime) : string :=
  zpad 4 (year d) +:+ "-" +:+ zpad 2 (month d) +:+ "-" +:+ zpad 2 (day d)
  +:+ "T" +:+ zpad 2 (hour d) +:+ ":" +:+ zpad 2 (minute d) +:+ ":"
  +:+ zpad 2 (second d)
  +:+ (if Nat.eqb (microsecond d) 0 then "" else "." +:+ zpad 6 (microsecond d)).

(** [datetime.strftime("%Y%m%d_%H%M%S")]. *)
Definition strftime_backup (d : datetime) : string :=
  zpad 4 (year d) +:+ zpad 2 (month d) +:+ zpad 2 (day d) +:+ "_"
  +:+ zpad 2 (hour d) +:+ zpad 2 (minute d) +:+ zpad 2 (second d).

(** ** Files *)

(** What a file holds, as far as [json.load] can tell. *)
Inductive file_content : Type :=
| Json (v : value)        (* the complete text of a JSON document decoding to [v] *)
| Truncated               (* a file opened for writing and not written to its end *)
| Garbled (text : string) (* any other text that is not a JSON document *).

(** What the operating system does at the next [open]. *)
Inductive io_event : Type :=
| IoOk
| IoOpenFails       (* [open] raises [OSError] *)
| IoTransferFails   (* the file opens, reading or writing it raises [OSError] *).

(** ** State *)

Record state : Type := MkState {
  settings : gmap string value;       (* [self.settings.__dict__] *)
  fs : gmap string file_content;      (* path |-> content *)
  base_dir : string;                  (* [config.BASE_DIR] *)
  clock : nat -> datetime;            (* successive readings of the wall clock *)
  tick : nat;                         (* readings taken so far *)
  faults : list io_event              (* one entry per coming [open]; none: [IoOk] *)
}.

Definition with_settings (o : gmap string value) (s : state) : state :=
  MkState o (fs s) (base_dir s) (clock s) (tick s) (faults s).
Definition with_fs (f : gmap string file_content) (s : state) : state :=
  MkState (settings s) f (base_dir s) (clock s) (tick s) (faults s).
Definition with_tick (n : nat) (s : state) : state :=
  MkState (settings s) (fs s) (base_dir s) (clock s) n (faults s).
Definition with_faults (l : list io_event) (s : state) : state :=
  MkState (settings s) (fs s) (base_dir s) (clock s) (tick s) l.

(** ** A state and exception monad

    A raised exception keeps the state reached so far: Python undoes
    nothing when it unwinds. *)
Definition M (A : Type) : Type := state -> outcome A * state.

Definition ret {A} (a : A) : M A := fun s => (Ret a, s).
Definition raise {A} (e : exn) : M A := fun s => (Raise e, s).
Definition bind {A B} (m : M A) (k : A -> M B) : M B :=
  fun s => match m s with
           | (Ret a, s') => k a s'
           | (Raise e, s') => (Raise e, s')
           end.
(** [try: m  except Exception: h]. *)
Definition try_except {A} (m : M A) (h : exn -> M A) : M A :=
  fun s => match m s with
           | (Ret a, s') => (Ret a, s')
           | (Raise e, s') => h e s'
           end.

Declare Scope py_scope.
Delimit Scope py_scope with py.
Notation "x <- m ;; k" := (bind m (fun x => k))
  (at level 100, m at next level, right associativity) : py_scope.
Notation "m ;;; k" := (bind m (fun _ => k))
  (at level 100, right associativity) : py_scope.
Local Open Scope py_scope.

Definition get_state : M state := fun s => (Ret s, s).
Definition put_settings (o : gmap string value) : M unit :=
  fun s => (Ret tt, with_settings o s).

(** [datetime.now()]: take the next reading. *)
Definition now : M datetime :=
  fun s => (Ret (clock s (tick s)), with_tick (S (tick s)) s).

(** ** The [UserSettings] dataclass *)

Inductive ftype : Type := TStr | TInt | TBool.

Inductive fdefault : Type :=
| Default (v : value)   (* [name: type = v] *)
| DefaultFactory        (* [field(default_factory=lambda: datetime.now().isoformat())] *).

Record field : Type := MkField {
  fname : string; fty : ftype; fdef : fdefault
}.

(** The fields in declaration order. *)
Definition UserSettings_fields : list field := [
  (* Image Settings *)
  MkField "image_default_layout" TStr (Default (VStr "vertical"));
  MkField "image_default_spacing" TInt (Default (VInt 10));
  MkField "image_default_quality" TInt (Default (VInt 95));
  MkField "image_default_resize_mode" TStr (Default (VStr "none"));
  MkField "image_default_filter" TStr (Default (VStr "none"));
  MkField "image_add_watermark" TBool (Default (VBool false));
  MkField "image_watermark_text" TStr (Default (VStr "© 2024"));
  MkField "image_watermark_position" TStr (Default (VStr "bottom-right"));
  MkField "image_watermark_opacity" TInt (Default (VInt 128));
  (* Text Settings *)
  MkField "text_default_separator" TStr (Default (VStr "simple"));
  MkField "text_default_encoding" TStr (Default (VStr "utf-8"));
  MkField "text_add_line_numbers" TBool (Default (VBool false));
  MkField "text_add_timestamps" TBool (Default (VBool false));
  MkField "text_strip_whitespace" TBool (Default (VBool false));
  MkField "text_markdown_export" TBool (Default (VBool false));
  (* Output Settings *)
  MkField "output_use_timestamp" TBool (Default (VBool true));
  MkField "output_auto_overwrite" TBool (Default (VBool false));
  MkField "output_create_backup" TBool (Default (VBool true));
  MkField "output_default_directory" TStr (Default (VStr "output"));
  (* UI Settings *)
  MkField "ui_show_file_size" TBool (Default (VBool true));
  MkField "ui_show_statistics" TBool (Default (VBool true));
  MkField "ui_confirm_before_process" TBool (Default (VBool true));
  MkField "ui_clear_screen" TBool (Default (VBool false));
  MkField "ui_color_output" TBool (Default (VBool true));
  (* Performance Settings *)
  MkField "performance_max_workers" TInt (Default (VInt 4));
  MkField "performance_chunk_size" TInt (Default (VInt 8192));
  MkField "performance_enable_cache" TBool (Default (VBool true));
  MkField "performance_cache_size_mb" TInt (Default (VInt 128));
  (* Advanced Settings *)
  MkField "advanced_debug_mode" TBool (Default (VBool false));
  MkField "advanced_log_level" TStr (Default (VStr "INFO"));
  MkField "advanced_backup_count" TInt (Default (VInt 5));
  MkField "advanced_auto_cleanup" TBool (Default (VBool true));
  (* Metadata *)
  MkField "last_modified" TStr DefaultFactory;
  MkField "version" TStr (Default (VStr "2.0.0"))
].

Definition field_names : list string := map fname UserSettings_fields.

Definition is_field (k : string) : bool :=
  existsb (String.eqb k) field_names.


Definition class_attr (f : field) : list (string * value) :=
  match fdef f with
  | Default v => [(fname f, v)]
  | DefaultFactory => []
  end.

Definition UserSettings_class : gmap string value :=
  list_to_map (("__doc__", VStr "User preferences data class")
               :: flat_map class_attr UserSettings_fields).

(** Attribute lookup on an instance: its own dictionary, then the class. *)
Definition py_getattr (o : gmap string value) (k : string) : option value :=
  match o !! k with
  | Some v => Some v
  | None => UserSettings_class !! k
  end.

Definition hasattr (o : gmap string value) (k : string) : bool :=
  match py_getattr o k with Some _ => true | None => false end.

(** [setattr(o, k, v)] stores into the instance dictionary. *)
Definition setattr (o : gmap string value) (k : string) (v : value)
  : gmap string value := <[k := v]> o.

(** [o.k], raising [AttributeError] when the lookup fails. *)
Definition attr (o : gmap string value) (k : string) : M value :=
  match py_getattr o k with
  | Some v => ret v
  | None => raise AttributeError
  end.

(** The generated [__init__], field after field: the keyword argument when
    given, else the default; the factory runs only for a missing argument. *)
Fixpoint init_fields (fields : list field) (kwargs : gmap string value)
    (self : gmap string value) : M (gmap string value) :=
  match fields with
  | [] => ret self
  | f :: rest =>
      v <- match kwargs !! fname f with
           | Some v => ret v
           | None => match fdef f with
                     | Default d => ret d
                     | DefaultFactory => d <- now ;; ret (VStr (isoformat d))
                     end
           end ;;
      init_fields rest kwargs (setattr self (fname f) v)
  end.

(** The constructor called with the keyword arguments [kwargs]: an
    unexpected keyword is a [TypeError]. *)
Definition UserSettings_init (kwargs : list (string * value))
  : M (gmap string value) :=
  if forallb (fun kv => is_field (fst kv)) kwargs
  then init_fields UserSettings_fields (list_to_map kwargs) ∅
  else raise TypeError.

(** The constructor called on an unpacked [data], which has to be a
    mapping. *)
Definition UserSettings_of (data : value) : M (gmap string value) :=
  match data with
  | VDict kvs => UserSettings_init kvs
  | _ => raise TypeError
  end.

(** [dataclasses.asdict(o)]: every field, in declaration order. *)
Fixpoint asdict_fields (fields : list field) (o : gmap string value)
  : M (list (string * value)) :=
  match fields with
  | [] => ret []
  | f :: rest =>
      v <- attr o (fname f) ;;
      d <- asdict_fields rest o ;;
      ret ((fname f, v) :: d)
  end.

Definition asdict (o : gmap string value) : M value :=
  d <- asdict_fields UserSettings_fields o ;; ret (VDict d).

(** ** File primitives *)

(** An open file: its path and what the system will do to the transfer. *)
Record handle : Type := MkHandle { hpath : string; hevent : io_event }.

Definition next_event : M io_event :=
  fun s => match faults s with
           | [] => (Ret IoOk, s)
           | e :: rest => (Ret e, with_faults rest s)
           end.

Definition path_join (dir name : string) : string := dir +:+ "/" +:+ name.

(** [Path.exists()]. *)
Definition path_exists (p : string) : M bool :=
  fun s => (Ret (match fs s !! p with Some _ => true | None => false end), s).

(** [open(p, 'r', encoding='utf-8')]. *)
Definition open_r (p : string) : M handle :=
  e <- next_event ;;
  match e with
  | IoOpenFails => raise OSError
  | _ => fun s => match fs s !! p with
                  | Some _ => (Ret (MkHandle p e), s)
                  | None => (Raise FileNotFoundError, s)
                  end
  end.

(** [open(p, 'w', encoding='utf-8')]: creates or empties the file. *)
Definition open_w (p : string) : M handle :=
  e <- next_event ;;
  match e with
  | IoOpenFails => raise OSError
  | _ => fun s => (Ret (MkHandle p e), with_fs (<[p := Truncated]> (fs s)) s)
  end.

(** [json.load(f)]. *)
Definition json_load (f : handle) : M value :=
  match hevent f with
  | IoTransferFails => raise OSError
  | _ => fun s => match fs s !! hpath f with
                  | Some (Json v) => (Ret v, s)
                  | _ => (Raise JSONDecodeError, s)
                  end
  end.

(** [json.dump(v, f, indent=2)]: the document reaches the file whole only
    when the encoder accepts [v] and every write succeeds. *)
Definition json_dump (v : value) (f : handle) : M unit :=
  match hevent f with
  | IoTransferFails => raise OSError
  | _ => if json_serializable v
         then fun s => (Ret tt, with_fs (<[hpath f := Json v]> (fs s)) s)
         else raise TypeError
  end.

(** ** [SettingsManager] *)

Definition SETTINGS_FILE (base : string) : string :=
  path_join base "settings.json".

(** [self.settings]. *)
Definition self_settings : M (gmap string value) :=
  fun s => (Ret (settings s), s).

Definition load_settings : M (gmap string value) :=
  st <- get_state ;;
  let path := SETTINGS_FILE (base_dir st) in
  present <- path_exists path ;;
  loaded <- (if present
             then try_except
                    (f <- open_r path ;;
                     data <- json_load f ;;
                     o <- UserSettings_of data ;;
                     ret (Some o))
                    (fun _ => ret None)
             else ret None) ;;
  match loaded with
  | Some o => ret o
  | None => UserSettings_init []
  end.


Definition save_settings : M bool :=
  try_except
    (d <- now ;;
     o <- self_settings ;;
     put_settings (setattr o "last_modified" (VStr (isoformat d))) ;;;
     st <- get_state ;;
     f <- open_w (SETTINGS_FILE (base_dir st)) ;;
     o' <- self_settings ;;
     v <- asdict o' ;;
     json_dump v f ;;;
     ret true)
    (fun _ => ret false).

Definition reset_to_defaults : M unit :=
  o <- UserSettings_init [] ;; put_settings o.

Definition backup_settings : M (option string) :=
  try_except
    (d <- now ;;
     let timestamp := strftime_backup d in
     st <- get_state ;;
     let backup_file :=
       path_join (base_dir st) ("settings_backup_" +:+ timestamp +:+ ".json") in
     f <- open_w backup_file ;;
     o <- self_settings ;;
     v <- asdict o ;;
     json_dump v f ;;;
     ret (Some backup_file))
    (fun _ => ret None).

Definition restore_settings (backup_file : string) : M bool :=
  try_except
    (f <- open_r backup_file ;;
     data <- json_load f ;;
     o <- UserSettings_of data ;;
     put_settings o ;;;
     ret true)
    (fun _ => ret false).

Definition export_settings (export_path : string) : M bool :=
  try_except
    (f <- open_w export_path ;;
     o <- self_settings ;;
     v <- asdict o ;;
     json_dump v f ;;;
     ret true)
    (fun _ => ret false).

Definition import_settings (import_path : string) : M bool :=
  try_except
    (f <- open_r import_path ;;
     data <- json_load f ;;
     o <- UserSettings_of data ;;
     put_settings o ;;;
     ret true)
    (fun _ => ret false).

Definition get_setting (key : string) (default : value) : M value :=
  o <- self_settings ;;
  ret (match py_getattr o key with Some v => v | None => default end).

Definition set_setting (key : string) (v : value) : M bool :=
  try_except
    (o <- self_settings ;;
     if hasattr o key
     then put_settings (setattr o key v) ;;; ret true
     else ret false)
    (fun _ => ret false).

(** [v < n] and [v > n] against an integer literal: defined on integers
    and on booleans (which are integers), a [TypeError] on the rest. *)
Definition as_int (v : value) : M Z :=
  match v with
  | VInt a => ret a
  | VBool b => ret (if b then 1 else 0)
  | _ => raise TypeError
  end.

Definition py_lt (v : value) (n : Z) : M bool :=
  a <- as_int v ;; ret (a <? n).
Definition py_gt (v : value) (n : Z) : M bool :=
  a <- as_int v ;; ret (a >? n).

(** [a or b], [b] evaluated only when [a] is false. *)
Definition py_or (a b : M bool) : M bool :=
  x <- a ;; if x then ret true else b.

(** [v not in l] for a list [l] of string literals. *)
Definition not_in_strs (v : value) (l : list string) : bool :=
  match v with
  | VStr s => negb (existsb (String.eqb s) l)
  | _ => true
  end.

(** [issues.setdefault(k, []).append(msg)]. *)
Definition setdefault_append (k msg : string)
    (issues : gmap string (list string)) : gmap string (list string) :=
  <[k := (default [] (issues !! k) ++ [msg])%list]> issues.

Definition valid_log_levels : list string :=
  ["DEBUG"; "INFO"; "WARNING"; "ERROR"; "CRITICAL"].

Definition log_level_message : string :=
  "Log level must be one of: ['DEBUG', 'INFO', 'WARNING', 'ERROR', 'CRITICAL']".

Definition validate_settings : M (gmap string (list string)) :=
  s <- self_settings ;;
  let issues : gmap string (list string) := ∅ in
  (* Validate image settings *)
  c <- py_or (q <- attr s "image_default_quality" ;; py_lt q 1)
             (q <- attr s "image_default_quality" ;; py_gt q 100) ;;
  let issues :=
    if c then setdefault_append "image" "Quality must be between 1-100" issues
    else issues in
  c <- (sp <- attr s "image_default_spacing" ;; py_lt sp 0) ;;
  let issues :=
    if c then setdefault_append "image" "Spacing cannot be negative" issues
    else issues in
  c <- py_or (w <- attr s "image_watermark_opacity" ;; py_lt w 0)
             (w <- attr s "image_watermark_opacity" ;; py_gt w 255) ;;
  let issues :=
    if c
    then setdefault_append "image" "Watermark opacity must be between 0-255" issues
    else issues in
  (* Validate performance settings *)
  c <- (m <- attr s "performance_max_workers" ;; py_lt m 1) ;;
  let issues :=
    if c
    then setdefault_append "performance" "Max workers must be at least 1" issues
    else issues in
  c <- (m <- attr s "performance_cache_size_mb" ;; py_lt m 0) ;;
  let issues :=
    if c
    then setdefault_append "performance" "Cache size cannot be negative" issues
    else issues in
  (* Validate advanced settings *)
  l <- attr s "advanced_log_level" ;;
  let issues :=
    if not_in_strs l valid_log_levels
    then setdefault_append "advanced" log_level_message issues
    else issues in
  ret issues.

Definition get_all_settings : M value :=
  o <- self_settings ;; asdict o.

(** ** Well-formed records *)

Definition has_type (v : value) (t : ftype) : bool :=
  match t, v with
  | TStr, VStr _ => true
  | TInt, VInt _ => true
  | TBool, VBool _ => true
  | _, _ => false
  end.

(** Every field is set and holds a value of its declared type. *)
Definition well_typed (o : gmap string value) : bool :=
  forallb (fun f => match o !! fname f with
                    | Some v => has_type v (fty f)
                    | None => false
                    end) UserSettings_fields.

(** Every field is set and holds a value [json.dump] accepts. *)
Definition serializable (o : gmap string value) : bool :=
  forallb (fun f => match o !! fname f with
                    | Some v => json_serializable v
                    | None => false
                    end) UserSettings_fields.

(** The default a field takes when the clock reads [d]. *)
Definition default_value (d : datetime) (f : field) : value :=
  match fdef f with
  | Default v => v
  | DefaultFactory => VStr (isoformat d)
  end.

(** A default record built when the clock reads [d]. *)
Definition defaults_at (d : datetime) : gmap string value :=
  list_to_map (map (fun f => (fname f, default_value d f)) UserSettings_fields).

(** * The configuration module and the settings menu

    [config.py] and [ui/settings_ui.py], over the same values and the same
    outcome type.  The module-level classes and the menu's own fields are
    further components of the state, so the monad is taken over any state
    type. *)

(** ** A state and exception monad over any state *)

Definition St (S A : Type) : Type := S -> outcome A * S.

Definition sret {S A} (a : A) : St S A := fun s => (Ret a, s).
Definition sraise {S A} (e : exn) : St S A := fun s => (Raise e, s).
Definition sbind {S A B} (m : St S A) (k : A -> St S B) : St S B :=
  fun s => match m s with
           | (Ret a, s') => k a s'
           | (Raise e, s') => (Raise e, s')
           end.

Notation "x <~ m ;; k" := (sbind m (fun x => k))
  (at level 100, m at next level, right associativity) : py_scope.
Notation "m ;;~ k" := (sbind m (fun _ => k))
  (at level 100, right associativity) : py_scope.

(** ** Built-in functions

    What the code asks of [str], [int] and [pathlib]; nothing is assumed
    of them but their types.  [py_int] is [None] where [int] raises
    [ValueError]. *)
Class Builtins : Type := MkBuiltins {
  py_strip : string -> string;        (* [s.strip()] *)
  py_lower : string -> string;        (* [s.lower()] *)
  py_upper : string -> string;        (* [s.upper()] *)
  py_int : string -> option Z;        (* [int(s)] *)
  path_suffix : string -> string      (* [Path(s).suffix] *)
}.

(** ** [config.py]: the file categories *)

Definition SUPPORTED_IMAGE_FORMATS : gset string :=
  {[ ".png"; ".jpg"; ".jpeg"; ".bmp"; ".gif";
     ".tiff"; ".tif"; ".webp"; ".ico"; ".svg" ]}.

Definition SUPPORTED_TEXT_FORMATS : gset string :=
  {[ ".txt"; ".md"; ".csv"; ".json"; ".xml";
     ".log"; ".ini"; ".yaml"; ".yml" ]}.

Definition SUPPORTED_DOCUMENT_FORMATS : gset string :=
  {[ ".pdf"; ".docx"; ".doc"; ".odt" ]}.

Definition ALL_SUPPORTED_FORMATS : gset string :=
  SUPPORTED_IMAGE_FORMATS ∪ SUPPORTED_TEXT_FORMATS ∪ SUPPORTED_DOCUMENT_FORMATS.

Definition is_supported_file `{Builtins} (filepath : string) : bool :=
  let ext := py_lower (path_suffix filepath) in
  bool_decide (ext ∈ ALL_SUPPORTED_FORMATS).

Definition get_file_category `{Builtins} (filepath : string) : string :=
  let ext := py_lower (path_suffix filepath) in
  if bool_decide (ext ∈ SUPPORTED_IMAGE_FORMATS) then "image"
  else if bool_decide (ext ∈ SUPPORTED_TEXT_FORMATS) then "text"
  else if bool_decide (ext ∈ SUPPORTED_DOCUMENT_FORMATS) then "document"
  else "unknown".

(** ** [config.py]: the classes the manager writes to *)

(** A class attribute: a value, or a tuple. *)
Inductive cvalue : Type :=
| CVal (v : value)
| CTuple (vs : list value).

(** The namespaces of the three classes. *)
Record config : Type := MkConfig {
  ImageConfig : gmap string cvalue;
  TextConfig : gmap string cvalue;
  OutputConfig : gmap string cvalue
}.

Definition ImageConfig_class : gmap string cvalue :=
  list_to_map [
    ("__doc__", CVal (VStr "Konfigurasi untuk pemrosesan gambar"));
    ("LAYOUT_VERTICAL", CVal (VStr "vertical"));
    ("LAYOUT_HORIZONTAL", CVal (VStr "horizontal"));
    ("LAYOUT_GRID", CVal (VStr "grid"));
    ("LAYOUT_CUSTOM", CVal (VStr "custom"));
    ("DEFAULT_LAYOUT", CVal (VStr "vertical"));
    ("DEFAULT_SPACING", CVal (VInt 10));
    ("DEFAULT_BACKGROUND", CTuple [VInt 255; VInt 255; VInt 255]);
    ("DEFAULT_QUALITY", CVal (VInt 95));
    ("MAX_IMAGE_WIDTH", CVal (VInt 10000));
    ("MAX_IMAGE_HEIGHT", CVal (VInt 10000));
    ("MAX_GRID_SIZE", CVal (VInt 100));
    ("RESIZE_MODES", CVal (VDict [
       ("fit", VStr "Fit to dimension");
       ("fill", VStr "Fill and crop");
       ("stretch", VStr "Stretch to fit");
       ("none", VStr "Keep original")]));
    ("FILTERS", CVal (VDict [
       ("none", VStr "No filter");
       ("grayscale", VStr "Grayscale");
       ("sepia", VStr "Sepia tone");
       ("blur", VStr "Blur");
       ("sharpen", VStr "Sharpen");
       ("edge", VStr "Edge enhance")]))
  ].

Definition TextConfig_class : gmap string cvalue :=
  list_to_map [
    ("__doc__", CVal (VStr "Konfigurasi untuk pemrosesan teks"));
    ("DEFAULT_ENCODING", CVal (VStr "utf-8"));
    ("FALLBACK_ENCODINGS",
       CVal (VList [VStr "latin-1"; VStr "cp1252"; VStr "iso-8859-1"]));
    ("SEPARATOR_STYLES", CVal (VDict [
       ("simple", VStr "=== {filename} ===");
       ("fancy", VStr "╔══════════════════════════════════════╗
║ {filename}
╚══════════════════════════════════════╝");
       ("minimal", VStr "--- {filename} ---");
       ("none", VStr "{filename}")]));
    ("DEFAULT_SEPARATOR", CVal (VStr "simple"));
    ("ADD_LINE_NUMBERS", CVal (VBool false));
    ("ADD_TIMESTAMPS", CVal (VBool false));
    ("STRIP_WHITESPACE", CVal (VBool false))
  ].

Definition OutputConfig_class : gmap string cvalue :=
  list_to_map [
    ("__doc__", CVal (VStr "Konfigurasi untuk output files"));
    ("DEFAULT_IMAGE_OUTPUT", CVal (VStr "merged_images.png"));
    ("DEFAULT_TEXT_OUTPUT", CVal (VStr "merged_text.txt"));
    ("DEFAULT_PDF_OUTPUT", CVal (VStr "merged_document.pdf"));
    ("USE_TIMESTAMP", CVal (VBool true));
    ("TIMESTAMP_FORMAT", CVal (VStr "%Y%m%d_%H%M%S"));
    ("AUTO_OVERWRITE", CVal (VBool false));
    ("CREATE_BACKUP", CVal (VBool true))
  ].

(** The classes as the module defines them. *)
Definition config_module : config :=
  MkConfig ImageConfig_class TextConfig_class OutputConfig_class.

(** ** The application state: the manager's state and the classes *)

Record app : Type := MkApp { core : state; cfg : config }.

(** A manager operation, run in the application. *)
Definition lift {A} (m : M A) : St app A :=
  fun a => match m (core a) with (r, s') => (r, MkApp s' (cfg a)) end.

(** [ImageConfig.k = v], [TextConfig.k = v], [OutputConfig.k = v]. *)
Definition set_ImageConfig (k : string) (v : value) : St app unit :=
  fun a => (Ret tt,
            MkApp (core a)
                  (MkConfig (<[k := CVal v]> (ImageConfig (cfg a)))
                            (TextConfig (cfg a)) (OutputConfig (cfg a)))).
Definition set_TextConfig (k : string) (v : value) : St app unit :=
  fun a => (Ret tt,
            MkApp (core a)
                  (MkConfig (ImageConfig (cfg a))
                            (<[k := CVal v]> (TextConfig (cfg a)))
                            (OutputConfig (cfg a)))).
Definition set_OutputConfig (k : string) (v : value) : St app unit :=
  fun a => (Ret tt,
            MkApp (core a)
                  (MkConfig (ImageConfig (cfg a)) (TextConfig (cfg a))
                            (<[k := CVal v]> (OutputConfig (cfg a))))).

(** [self.settings.k]. *)
Definition settings_attr (k : string) : St app value :=
  lift (o <- self_settings ;; attr o k).

Definition apply_to_config : St app unit :=
  (* Apply image settings *)
  v <~ settings_attr "image_default_layout" ;;
  set_ImageConfig "DEFAULT_LAYOUT" v ;;~
  v <~ settings_attr "image_default_spacing" ;;
  set_ImageConfig "DEFAULT_SPACING" v ;;~
  v <~ settings_attr "image_default_quality" ;;
  set_ImageConfig "DEFAULT_QUALITY" v ;;~
  (* Apply text settings *)
  v <~ settings_attr "text_default_encoding" ;;
  set_TextConfig "DEFAULT_ENCODING" v ;;~
  v <~ settings_attr "text_default_separator" ;;
  set_TextConfig "DEFAULT_SEPARATOR" v ;;~
  v <~ settings_attr "text_add_line_numbers" ;;
  set_TextConfig "ADD_LINE_NUMBERS" v ;;~
  v <~ settings_attr "text_add_timestamps" ;;
  set_TextConfig "ADD_TIMESTAMPS" v ;;~
  v <~ settings_attr "text_strip_whitespace" ;;
  set_TextConfig "STRIP_WHITESPACE" v ;;~
  (* Apply output settings *)
  v <~ settings_attr "output_use_timestamp" ;;
  set_OutputConfig "USE_TIMESTAMP" v ;;~
  v <~ settings_attr "output_auto_overwrite" ;;
  set_OutputConfig "AUTO_OVERWRITE" v ;;~
  v <~ settings_attr "output_create_backup" ;;
  set_OutputConfig "CREATE_BACKUP" v ;;~
  sret tt.

(** ** [ui/settings_ui.py]: the menu's state *)

(** The menu holds the manager (here with the classes it applies to), its
    [modified] flag, and reads the terminal.  The terminal is the sequence
    of lines the user types, one per [input]; the end of input and
    interrupts are not modelled.  [print] and [clear_screen] change
    nothing of the state and are left out, and with them the prompts,
    which are only printed. *)
Record ui : Type := MkUi {
  ui_app : app;             (* [self.manager] and the [config] classes *)
  modified : bool;          (* [self.modified] *)
  answers : nat -> string;  (* the lines typed, in order *)
  asked : nat               (* lines read so far *)
}.

Definition liftA {A} (m : St app A) : St ui A :=
  fun u => match m (ui_app u) with
           | (r, a') => (r, MkUi a' (modified u) (answers u) (asked u))
           end.

(** A manager operation, run from the menu. *)
Definition liftM {A} (m : M A) : St ui A := liftA (lift m).

(** [input(prompt)]. *)
Definition input : St ui string :=
  fun u => (Ret (answers u (asked u)),
            MkUi (ui_app u) (modified u) (answers u) (S (asked u))).

(** [self.modified = b]. *)
Definition set_modified (b : bool) : St ui unit :=
  fun u => (Ret tt, MkUi (ui_app u) b (answers u) (asked u)).

Definition get_modified : St ui bool :=
  fun u => (Ret (modified u), u).











(** [if c: m]. *)
Definition when_ {S} (c : bool) (m : St S unit) : St S unit :=
  if c then m else sret tt.

(** ** The six editors *)







(** ** The dialogs on files, reset and exit *)

(** [s.endswith(suffix)]: some tail of [s] is [suffix]. *)
Fixpoint ends_with (suffix s : string) : bool :=
  String.eqb s suffix
  || match s with
     | EmptyString => false
     | String _ rest => ends_with suffix rest
     end.

(** [s.strip(c)] for a one-character [c]. *)
Fixpoint lstrip_char (c : ascii) (s : string) : string :=
  match s with
  | EmptyString => EmptyString
  | String x rest => if Ascii.eqb x c then lstrip_char c rest else s
  end.

Fixpoint rstrip_char (c : ascii) (s : string) : string :=
  match s with
  | EmptyString => EmptyString
  | String x rest =>
      match rstrip_char c rest with
      | EmptyString => if Ascii.eqb x c then EmptyString else String x EmptyString
      | rest' => String x rest'
      end
  end.

Definition strip_char (c : ascii) (s : string) : string :=
  rstrip_char c (lstrip_char c s).

(** The double quote. *)
Definition dquote : ascii := ascii_of_nat 34.

(** The methods of [SettingsUI] that share a name with the manager's. *)
Module SettingsUI.

Definition export_settings `{Builtins} : St ui unit :=
  line <~ input ;;
  let export_path := py_strip line in
  if String.eqb export_path "" then sret tt
  else
    let export_path :=
      if ends_with ".json" export_path then export_path
      else export_path +:+ ".json" in
    ok <~ liftM (export_settings export_path) ;;
    sret tt.

Definition import_settings `{Builtins} : St ui unit :=
  line <~ input ;;
  let import_path := strip_char dquote (py_strip line) in
  if String.eqb import_path "" then sret tt
  else
    present <~ liftM (path_exists import_path) ;;
    if negb present then sret tt
    else
      line <~ input ;;
      let confirm := py_lower line in
      if String.eqb confirm "y"
      then ok <~ liftM (import_settings import_path) ;;
           when_ ok (set_modified false)
      else sret tt.

Definition backup_settings : St ui unit :=
  backup_file <~ liftM backup_settings ;;
  sret tt.

Definition restore_settings `{Builtins} : St ui unit :=
  line <~ input ;;
  let backup_path := strip_char dquote (py_strip line) in
  if String.eqb backup_path "" then sret tt
  else
    present <~ liftM (path_exists backup_path) ;;
    if negb present then sret tt
    else
      ok <~ liftM (restore_settings backup_path) ;;
      when_ ok (set_modified false).

End SettingsUI.



Definition exit_settings `{Builtins} : St ui bool :=
  m <~ get_modified ;;
  if m then
    line <~ input ;;
    let choice := py_strip line in
    if String.eqb choice "1" then
      saved <~ liftM save_settings ;;
      if saved then liftA apply_to_config ;;~ sret true
      else sret false
    else if String.eqb choice "2" then
      line <~ input ;;
      let confirm := py_lower line in
      if String.eqb confirm "y" then sret true else sret false
    else sret false
  else sret true.

(** * Vocabulary of the statements

    The pure counterparts of the operations' results, and the concrete
    states the statements are tried on. *)

(** The value the constructor gives field [f] when the clock reads [d]. *)
Definition field_value (kwargs : gmap string value) (d : datetime) (f : field)
  : value :=
  match kwargs !! fname f with
  | Some v => v
  | None => default_value d f
  end.

Definition calls_factory (kwargs : gmap string value) (f : field) : bool :=
  match fdef f with
  | DefaultFactory => match kwargs !! fname f with None => true | Some _ => false end
  | Default _ => false
  end.

Fixpoint factory_calls (kwargs : gmap string value) (fields : list field) : nat :=
  match fields with
  | [] => 0
  | f :: rest =>
      ((if calls_factory kwargs f then 1 else 0) + factory_calls kwargs rest)%nat
  end.

Definition build (kwargs : gmap string value) (d : datetime)
    (self : gmap string value) (fields : list field) : gmap string value :=
  foldl (fun o f => setattr o (fname f) (field_value kwargs d f)) self fields.

(** The items [asdict] lists for a record that has every field set. *)
Definition snapshot (o : gmap string value) : list (string * value) :=
  map (fun f => (fname f, default VNone (o !! fname f))) UserSettings_fields.

Definition complete (o : gmap string value) : bool :=
  forallb (fun f => match o !! fname f with Some _ => true | None => false end)
          UserSettings_fields.

(** The state once the next [open] has taken its event. *)
Definition opened (s : state) : state := with_faults (tl (faults s)) s.

(** What the block [with open(p, 'r') as f: data = json.load(f)] followed
    by the constructor can use: the items of a JSON object whose keys are
    all field names, read without an I/O failure. *)
Definition readable (s : state) (p : string) : option (list (string * value)) :=
  match hd IoOk (faults s), fs s !! p with
  | IoOk, Some (Json (VDict kvs)) =>
      if forallb (fun kv => is_field (fst kv)) kvs then Some kvs else None
  | _, _ => None
  end.

(** The record the constructor builds from the items [kvs] in state [s],
    and the state it leaves. *)
Definition built (kvs : list (string * value)) (s : state) : gmap string value :=
  build (list_to_map kvs) (clock s (tick s)) ∅ UserSettings_fields.

Definition after_build (kvs : list (string * value)) (s : state) : state :=
  with_tick (tick s + match (list_to_map kvs : gmap string value)
                              !! "last_modified" with
                      | Some _ => 0 | None => 1 end) (opened s).

(** The state [save_settings] reaches before it opens the file. *)
Definition stamped (s : state) : state :=
  with_settings
    (setattr (settings s) "last_modified" (VStr (isoformat (clock s (tick s)))))
    (with_tick (S (tick s)) s).

(** Concrete states used to exercise the statements below. *)
Definition example_clock (n : nat) : datetime := MkDatetime 2026 11 3 12 0 n 0.

Definition example_state : state :=
  MkState (defaults_at (MkDatetime 2024 1 1 9 30 0 0)) ∅ "/app"
          example_clock 0 [].


(** A settings file holding an object with the one key ["not"]. *)
Definition not_valid_shape_state : state :=
  with_fs {[ "/app/settings.json" := Json (VDict [("not", VStr "valid shape")]) ]}
          example_state.

(** A settings file saved earlier, and a write that fails once opened. *)
Definition saved_state : state := snd (save_settings example_state).

Definition failing_write_state : state :=
  with_faults [IoTransferFails] saved_state.

Definition failing_open_state : state :=
  with_faults [IoOpenFails] saved_state.

(** A preset holding one key, with a string where an integer belongs. *)
Definition partial_preset_state : state :=
  with_fs {[ "/tmp/preset.json" :=
               Json (VDict [("image_default_quality", VStr "high")]) ]}
          example_state.

(** [if c: issues.setdefault(k, []).append(msg)]. *)
Definition flag (c : bool) (k msg : string)
    (issues : gmap string (list string)) : gmap string (list string) :=
  if c then setdefault_append k msg issues else issues.

(** The mapping [validate_settings] returns, from the six values it reads. *)
Definition issues_of (q sp w mw cs : Z) (lvl : value)
  : gmap string (list string) :=
  flag (not_in_strs lvl valid_log_levels) "advanced" log_level_message
    (flag (cs <? 0) "performance" "Cache size cannot be negative"
      (flag (mw <? 1) "performance" "Max workers must be at least 1"
        (flag ((w <? 0) || (w >? 255)) "image"
              "Watermark opacity must be between 0-255"
          (flag (sp <? 0) "image" "Spacing cannot be negative"
            (flag ((q <? 1) || (q >? 100)) "image"
                  "Quality must be between 1-100" ∅))))).

(** A computation that only reads: whatever it returns or raises, the
    state is the one it was given. *)
Definition read_only {A} (m : M A) : Prop := forall s, snd (m s) = s.

(** The file [backup_settings] writes, from the state it starts in. *)
Definition backup_path (s : state) : string :=
  path_join (base_dir s)
    ("settings_backup_" +:+ strftime_backup (clock s (tick s)) +:+ ".json").

(** What [o.k] evaluates to when the lookup succeeds. *)
Definition resolved (o : gmap string value) (k : string) : value :=
  default VNone (py_getattr o k).

Inductive config_class : Type := CImageConfig | CTextConfig | COutputConfig.

Definition class_ns (cls : config_class) (c : config) : gmap string cvalue :=
  match cls with
  | CImageConfig => ImageConfig c
  | CTextConfig => TextConfig c
  | COutputConfig => OutputConfig c
  end.

(** The class attributes [apply_to_config] assigns, each with the field it
    is taken from. *)
Definition applied_settings : list (config_class * string * string) := [
  (CImageConfig, "DEFAULT_LAYOUT", "image_default_layout");
  (CImageConfig, "DEFAULT_SPACING", "image_default_spacing");
  (CImageConfig, "DEFAULT_QUALITY", "image_default_quality");
  (CTextConfig, "DEFAULT_ENCODING", "text_default_encoding");
  (CTextConfig, "DEFAULT_SEPARATOR", "text_default_separator");
  (CTextConfig, "ADD_LINE_NUMBERS", "text_add_line_numbers");
  (CTextConfig, "ADD_TIMESTAMPS", "text_add_timestamps");
  (CTextConfig, "STRIP_WHITESPACE", "text_strip_whitespace");
  (COutputConfig, "USE_TIMESTAMP", "output_use_timestamp");
  (COutputConfig, "AUTO_OVERWRITE", "output_auto_overwrite");
  (COutputConfig, "CREATE_BACKUP", "output_create_backup")
].

(** The classes once [apply_to_config] has run on the record [o]. *)
Definition applied (o : gmap string value) (c : config) : config :=
  MkConfig
    (<["DEFAULT_QUALITY" := CVal (resolved o "image_default_quality")]>
       (<["DEFAULT_SPACING" := CVal (resolved o "image_default_spacing")]>
          (<["DEFAULT_LAYOUT" := CVal (resolved o "image_default_layout")]>
             (ImageConfig c))))
    (<["STRIP_WHITESPACE" := CVal (resolved o "text_strip_whitespace")]>
       (<["ADD_TIMESTAMPS" := CVal (resolved o "text_add_timestamps")]>
          (<["ADD_LINE_NUMBERS" := CVal (resolved o "text_add_line_numbers")]>
             (<["DEFAULT_SEPARATOR" := CVal (resolved o "text_default_separator")]>
                (<["DEFAULT_ENCODING" := CVal (resolved o "text_default_encoding")]>
                   (TextConfig c))))))
    (<["CREATE_BACKUP" := CVal (resolved o "output_create_backup")]>
       (<["AUTO_OVERWRITE" := CVal (resolved o "output_auto_overwrite")]>
          (<["USE_TIMESTAMP" := CVal (resolved o "output_use_timestamp")]>
             (OutputConfig c)))).


(** What [validate_settings] asks of the value of the field named [k]. *)
Definition range_ok (k : string) (v : value) : bool :=
  match v with
  | VInt n =>
      if String.eqb k "image_default_quality" then (1 <=? n) && (n <=? 100)
      else if String.eqb k "image_default_spacing" then 0 <=? n
      else if String.eqb k "image_watermark_opacity" then (0 <=? n) && (n <=? 255)
      else if String.eqb k "performance_max_workers" then 1 <=? n
      else if String.eqb k "performance_cache_size_mb" then 0 <=? n
      else true
  | VStr l =>
      if String.eqb k "advanced_log_level"
      then existsb (String.eqb l) valid_log_levels
      else true
  | _ => true
  end.

(** A record of the declared types that passes [validate_settings]. *)
Definition good (o : gmap string value) : bool :=
  forallb (fun f => match o !! fname f with
                    | Some v => has_type v (fty f) && range_ok (fname f) v
                    | None => false
                    end) UserSettings_fields.

(** The menu [u0] once it has edited the record into [o], with the flag
    at [m] and [n] lines read: everything else is as in [u0]. *)
Definition edited (u0 : ui) (o : gmap string value) (m : bool) (n : nat) : ui :=
  MkUi (MkApp (with_settings o (core (ui_app u0))) (cfg (ui_app u0)))
       m (answers u0) n.

(** [m], started on a valid record, returns a result that satisfies [Q];
    it changes nothing but the record, which stays valid, the flag, which
    it does not clear, and the number of lines read. *)
Definition spec (u0 : ui) {A} (m : St ui A) (Q : A -> Prop) : Prop :=
  forall o md n,
    good o = true ->
    exists a o' md' n',
      m (edited u0 o md n) = (Ret a, edited u0 o' md' n')
      /\ good o' = true /\ (md = true -> md' = true) /\ (n <= n')%nat /\ Q a.


(** An instance of the built-in functions and a menu to try the
    statements on; the statements hold for every instance. *)
Definition example_builtins : Builtins :=
  MkBuiltins (fun s => s) (fun s => s) (fun s => s)
             (fun s => if String.eqb s "80" then Some 80 else None)
             (fun s => ".json").


(** ** Vocabulary for the dialogs *)

(** The state of [self.manager]. *)
Definition manager (u : ui) : state := core (ui_app u).

(** The line the menu reads next, stripped; the same taken as a path, the
    quotes around it removed; and the line after it, in lower case. *)
Definition typed `{Builtins} (u : ui) : string :=
  py_strip (answers u (asked u)).
Definition typed_path `{Builtins} (u : ui) : string :=
  strip_char dquote (typed u).
Definition confirmation `{Builtins} (u : ui) : string :=
  py_lower (answers u (S (asked u))).

(** The path the export dialog writes to, from what was typed. *)
Definition json_path (p : string) : string :=
  if ends_with ".json" p then p else p +:+ ".json".


(** Menus to try the dialogs on: the lines typed are [l0], [l1] and then
    empty lines. *)
Definition lines (l0 l1 : string) (n : nat) : string :=
  match n with O => l0 | S O => l1 | _ => "" end.

Definition quoted (s : string) : string :=
  String dquote (s +:+ String dquote "").

Definition dialog_ui (s : state) (md : bool) (l0 l1 : string) : ui :=
  MkUi (MkApp s config_module) md (lines l0 l1) O.

(** * Properties *)

(** ** The generated constructor *)

Lemma with_tick_id s : with_tick (tick s) s = s.
Proof. by destruct s. Qed.

Lemma field_names_NoDup : NoDup field_names.
Proof. apply (bool_decide_unpack (NoDup field_names)). by vm_compute. Qed.

Lemma is_field_elem k : is_field k = true <-> k ∈ field_names.
Proof.
  unfold is_field. rewrite existsb_exists. split.
  - intros (x & Hin & Heq). apply String.eqb_eq in Heq. subst x.
    by apply list_elem_of_In.
  - intros Hin. exists k. split; [by apply list_elem_of_In|apply String.eqb_refl].
Qed.

Lemma field_value_indep kwargs d d' f :
  calls_factory kwargs f = false ->
  field_value kwargs d f = field_value kwargs d' f.
Proof.
  unfold calls_factory, field_value, default_value.
  destruct (fdef f), (kwargs !! fname f); congruence.
Qed.

Lemma build_indep kwargs d d' fields : forall self,
  factory_calls kwargs fields = 0%nat ->
  build kwargs d self fields = build kwargs d' self fields.
Proof.
  unfold build. induction fields as [|f rest IH]; intros self Hc; [done|].
  simpl in *. destruct (calls_factory kwargs f) eqn:Hf; [lia|].
  rewrite (field_value_indep _ d d' f Hf). apply IH. lia.
Qed.

Lemma init_fields_run kwargs fields : forall self s,
  (factory_calls kwargs fields <= 1)%nat ->
  init_fields fields kwargs self s =
    (Ret (build kwargs (clock s (tick s)) self fields),
     with_tick (tick s + factory_calls kwargs fields) s).
Proof.
  induction fields as [|f rest IH]; intros self s Hc; simpl in *.
  - unfold ret. by rewrite Nat.add_0_r, with_tick_id.
  - unfold bind, calls_factory in *.
    destruct (kwargs !! fname f) as [v|] eqn:Hk.
    + unfold ret at 1. rewrite IH by (destruct (fdef f); simpl in Hc; lia).
      unfold field_value. rewrite Hk. by destruct (fdef f).
    + destruct (fdef f) as [v|] eqn:Hd.
      * unfold ret at 1. rewrite IH by (simpl in Hc; lia).
        unfold field_value, default_value. by rewrite Hk, Hd.
      * assert (Hz : factory_calls kwargs rest = 0%nat) by lia.
        unfold now, ret. simpl. rewrite IH by lia. simpl.
        rewrite Hz, Nat.add_0_r.
        rewrite (build_indep _ _ (clock s (tick s)) rest _ Hz).
        unfold field_value, default_value. rewrite Hk, Hd, Nat.add_1_r.
        by destruct s.
Qed.

Lemma build_lookup kwargs d fields : forall self,
  NoDup (map fname fields) ->
  (forall f, f ∈ fields ->
     build kwargs d self fields !! fname f = Some (field_value kwargs d f))
  /\ (forall k, k ∉ map fname fields ->
        build kwargs d self fields !! k = self !! k).
Proof.
  unfold build. induction fields as [|f0 rest IH]; intros self Hnd; simpl.
  - split; [intros f Hf; by apply elem_of_nil in Hf|done].
  - apply NoDup_cons in Hnd as [Hnotin Hnd].
    destruct (IH (setattr self (fname f0) (field_value kwargs d f0)) Hnd)
      as [IHin IHout].
    split.
    + intros f Hf. apply elem_of_cons in Hf as [->|Hf]; [|by apply IHin].
      rewrite IHout by done. apply lookup_insert_eq.
    + intros k Hk. apply not_elem_of_cons in Hk as [Hne Hk].
      rewrite IHout by done. by apply lookup_insert_ne.
Qed.

Lemma factory_calls_UserSettings kwargs :
  factory_calls kwargs UserSettings_fields =
    match kwargs !! "last_modified" with Some _ => 0%nat | None => 1%nat end.
Proof.
  cbv [factory_calls UserSettings_fields calls_factory fdef fname Nat.add].
  by destruct (kwargs !! "last_modified").
Qed.

Lemma UserSettings_init_run kvs s :
  forallb (fun kv => is_field (fst kv)) kvs = true ->
  UserSettings_init kvs s =
    (Ret (build (list_to_map kvs) (clock s (tick s)) ∅ UserSettings_fields),
     with_tick (tick s + match (list_to_map kvs : gmap string value)
                                 !! "last_modified" with
                         | Some _ => 0 | None => 1 end) s).
Proof.
  intros Hk. unfold UserSettings_init. rewrite Hk.
  rewrite init_fields_run; rewrite factory_calls_UserSettings.
  - done.
  - destruct (_ !! _); lia.
Qed.

Lemma UserSettings_init_reject kvs s :
  forallb (fun kv => is_field (fst kv)) kvs = false ->
  UserSettings_init kvs s = (Raise TypeError, s).
Proof. intros Hk. unfold UserSettings_init. by rewrite Hk. Qed.

(** The constructor without arguments builds the default record and reads
    the clock once. *)
Lemma fmap_fst_map_fields (g : field -> value) (fields : list field) :
  (map (fun f => (fname f, g f)) fields).*1 = map fname fields.
Proof.
  induction fields as [|f rest IH]; [done|].
  cbn [map]. rewrite fmap_cons, IH. done.
Qed.

Lemma build_list_to_map kwargs d fields :
  NoDup (map fname fields) ->
  build kwargs d ∅ fields =
    list_to_map (map (fun f => (fname f, field_value kwargs d f)) fields).
Proof.
  intros Hnd. destruct (build_lookup kwargs d fields ∅ Hnd) as [Hin Hout].
  apply map_eq. intros k.
  destruct (decide (k ∈ map fname fields)) as [Hk|Hk].
  - apply list_elem_of_In, in_map_iff in Hk as (f & <- & Hf).
    apply list_elem_of_In in Hf.
    rewrite (Hin f Hf). symmetry. apply elem_of_list_to_map_1.
    + by rewrite fmap_fst_map_fields.
    + apply list_elem_of_In, in_map_iff. exists f.
      split; [done|by apply list_elem_of_In].
  - rewrite (Hout k Hk), lookup_empty. symmetry.
    apply not_elem_of_list_to_map_1. by rewrite fmap_fst_map_fields.
Qed.

Lemma build_defaults d : build ∅ d ∅ UserSettings_fields = defaults_at d.
Proof.
  rewrite build_list_to_map by apply field_names_NoDup.
  unfold defaults_at. by f_equal.
Qed.

Lemma UserSettings_default_run s :
  UserSettings_init [] s =
    (Ret (defaults_at (clock s (tick s))), with_tick (S (tick s)) s).
Proof.
  rewrite UserSettings_init_run by done.
  rewrite list_to_map_nil, lookup_empty, build_defaults, Nat.add_1_r. done.
Qed.

Lemma defaults_at_lookup d f :
  f ∈ UserSettings_fields ->
  defaults_at d !! fname f = Some (default_value d f).
Proof.
  intros Hf. rewrite <- build_defaults.
  destruct (build_lookup ∅ d UserSettings_fields ∅ field_names_NoDup) as [H _].
  rewrite (H f Hf). unfold field_value. by rewrite lookup_empty.
Qed.

Lemma defaults_at_nth d (i : nat) f :
  UserSettings_fields !! i = Some f ->
  defaults_at d !! fname f = Some (default_value d f).
Proof. intros Hi. apply defaults_at_lookup, (list_elem_of_lookup_2 _ _ _ Hi). Qed.

Lemma defaults_at_other d k : k ∉ field_names -> defaults_at d !! k = None.
Proof.
  intros Hk. rewrite <- build_defaults.
  destruct (build_lookup ∅ d UserSettings_fields ∅ field_names_NoDup) as [_ H].
  by rewrite (H k Hk).
Qed.

(** ** [asdict] and the way back *)

Lemma asdict_fields_state fields o s : snd (asdict_fields fields o s) = s.
Proof.
  induction fields as [|f rest IH]; [done|].
  simpl. unfold bind, attr. destruct (py_getattr o (fname f)); [|done].
  unfold ret at 1. destruct (asdict_fields rest o s) as [[d|e] s'] eqn:Hr;
    simpl in *; congruence.
Qed.

Lemma asdict_state o s : snd (asdict o s) = s.
Proof.
  unfold asdict, bind. pose proof (asdict_fields_state UserSettings_fields o s).
  by destruct (asdict_fields UserSettings_fields o s) as [[d|e] s'].
Qed.

Lemma asdict_fields_run fields o s :
  forallb (fun f => match o !! fname f with Some _ => true | None => false end)
          fields = true ->
  asdict_fields fields o s =
    (Ret (map (fun f => (fname f, default VNone (o !! fname f))) fields), s).
Proof.
  induction fields as [|f rest IH]; [done|].
  simpl. intros [Hf Hrest]%andb_prop. unfold bind, attr, py_getattr.
  destruct (o !! fname f) as [v|]; [|done].
  unfold ret at 1. by rewrite (IH Hrest).
Qed.

Lemma asdict_run o s :
  complete o = true -> asdict o s = (Ret (VDict (snapshot o)), s).
Proof.
  intros Hc. unfold asdict, bind. by rewrite asdict_fields_run.
Qed.

Lemma serializable_complete o : serializable o = true -> complete o = true.
Proof.
  unfold serializable, complete. rewrite !forallb_forall.
  intros H f Hf. specialize (H f Hf). by destruct (o !! fname f).
Qed.


Lemma json_serializable_dict kvs :
  json_serializable (VDict kvs) =
    forallb (fun kv => json_serializable (snd kv)) kvs.
Proof. done. Qed.

Lemma snapshot_serializable o :
  serializable o = true -> json_serializable (VDict (snapshot o)) = true.
Proof.
  rewrite json_serializable_dict. unfold serializable, snapshot.
  rewrite !forallb_forall. intros H [k v] Hin.
  apply in_map_iff in Hin as (f & [= <- <-] & Hf). specialize (H f Hf).
  simpl. by destruct (o !! fname f).
Qed.



Lemma field_names_elem k :
  k ∈ field_names <-> exists f, f ∈ UserSettings_fields /\ fname f = k.
Proof.
  unfold field_names. rewrite list_elem_of_In, in_map_iff.
  split; intros (f & H1 & H2); exists f; rewrite ?list_elem_of_In in *; done.
Qed.

(** ** Running the file blocks *)

Ltac unfold_py :=
  cbv [bind ret raise try_except get_state put_settings self_settings
       path_exists next_event now open_r open_w json_load json_dump
       with_settings with_fs with_tick with_faults
       UserSettings_of
       settings fs base_dir clock tick faults hpath hevent hd tl].

(** Case on the result of the [asdict] call in the goal; the state it
    returns is the one it was given. *)
Ltac run_asdict :=
  match goal with
  | |- context [asdict ?o ?s'] =>
      let H := fresh "Hst" in
      pose proof (asdict_state o s') as H;
      destruct (asdict o s') as [[?v|?e] ?s2]; simpl in H; subst
  end.

(** The block [with open(p, 'w') as f: json.dump(asdict(self.settings), f)],
    followed by [k]: either [open] fails and nothing is touched, or the
    file is left cut short, or the document is written and [k] runs. *)
Lemma write_block_cases {A} (p : string) (k : M A) (s : state) :
  let block := (f <- open_w p ;; o <- self_settings ;; v <- asdict o ;;
                json_dump v f ;;; k) in
  let cut := with_fs (<[p := Truncated]> (fs s)) (opened s) in
  (hd IoOk (faults s) = IoOpenFails /\ block s = (Raise OSError, opened s))
  \/ (hd IoOk (faults s) <> IoOpenFails /\ exists e, block s = (Raise e, cut))
  \/ (hd IoOk (faults s) = IoOk /\
      exists v, asdict (settings s) cut = (Ret v, cut)
                /\ json_serializable v = true
                /\ block s = k (with_fs (<[p := Json v]> (fs s)) (opened s))).
Proof.
  destruct s as [o fs0 bd clk tk fl].
  destruct fl as [|[] rest]; unfold opened; unfold_py.
  all: try (left; split; [done|]; done).
  all: run_asdict; try (right; left; split; [done|]; by eexists).
  all: destruct (json_serializable _) eqn:Hj; unfold_py;
       [right; right; split; [done|]; eexists;
        split; [done|split; [done|]]; by rewrite insert_insert_eq
       |right; left; split; [done|]; by eexists].
Qed.

Lemma write_block_open_fails {A} (p : string) (k : M A) (s : state) :
  hd IoOk (faults s) = IoOpenFails ->
  (f <- open_w p ;; o <- self_settings ;; v <- asdict o ;;
   json_dump v f ;;; k) s = (Raise OSError, opened s).
Proof.
  intros Hd. destruct (write_block_cases p k s) as [[_ H]|[[Hn _]|[Hn _]]];
    [done|congruence..].
Qed.

Lemma write_block_transfer_fails {A} (p : string) (k : M A) (s : state) :
  hd IoOk (faults s) = IoTransferFails ->
  exists e,
    (f <- open_w p ;; o <- self_settings ;; v <- asdict o ;;
     json_dump v f ;;; k) s
    = (Raise e, with_fs (<[p := Truncated]> (fs s)) (opened s)).
Proof.
  intros Hd. destruct (write_block_cases p k s) as [[Hn _]|[[_ H]|[Hn _]]];
    [congruence|done|congruence].
Qed.

Lemma write_block_ok {A} (p : string) (k : M A) (s : state) :
  hd IoOk (faults s) = IoOk ->
  serializable (settings s) = true ->
  (f <- open_w p ;; o <- self_settings ;; v <- asdict o ;;
   json_dump v f ;;; k) s
  = k (with_fs (<[p := Json (VDict (snapshot (settings s)))]> (fs s)) (opened s)).
Proof.
  intros Hd Hs.
  pose proof (snapshot_serializable _ Hs) as Hj.
  pose proof (serializable_complete _ Hs) as Hc.
  destruct s as [o fs0 bd clk tk fl]. cbn [settings faults] in *.
  destruct fl as [|[] rest]; try discriminate; unfold opened; unfold_py;
    rewrite (asdict_run o _ Hc), Hj; unfold_py; by rewrite insert_insert_eq.
Qed.

Lemma read_block_run {A} (p : string) (k : gmap string value -> M A) (s : state) :
  let block := (f <- open_r p ;; data <- json_load f ;;
                o <- UserSettings_of data ;; k o) in
  match readable s p with
  | Some kvs => block s = k (built kvs s) (after_build kvs s)
  | None => exists e, block s = (Raise e, opened s)
  end.
Proof.
  destruct s as [o fs0 bd clk tk fl].
  unfold readable, built, after_build, opened.
  destruct fl as [|[] rest]; unfold_py;
    destruct (fs0 !! p) as [[[]| |]|] eqn:Hp; unfold_py; rewrite ?Hp; unfold_py; try by eexists.
  all: destruct (forallb _ _) eqn:Hk;
    [rewrite UserSettings_init_run by done; by unfold_py
    |rewrite UserSettings_init_reject by done; by eexists].
Qed.

Lemma built_lookup kvs s f :
  f ∈ UserSettings_fields ->
  built kvs s !! fname f =
    Some (field_value (list_to_map kvs) (clock s (tick s)) f).
Proof.
  intros Hf. unfold built.
  by destruct (build_lookup (list_to_map kvs) (clock s (tick s))
                 UserSettings_fields ∅ field_names_NoDup) as [-> _].
Qed.

Lemma built_other kvs s k : k ∉ field_names -> built kvs s !! k = None.
Proof.
  intros Hk. unfold built.
  destruct (build_lookup (list_to_map kvs) (clock s (tick s))
              UserSettings_fields ∅ field_names_NoDup) as [_ H].
  by rewrite (H k Hk).
Qed.



(** ** Running the operations *)

Lemma save_settings_unfold s :
  save_settings s =
    try_except
      (f <- open_w (SETTINGS_FILE (base_dir s)) ;; o <- self_settings ;;
       v <- asdict o ;; json_dump v f ;;; ret true)
      (fun _ => ret false) (stamped s).
Proof. done. Qed.

Lemma serializable_setattr o k v :
  serializable o = true -> json_serializable v = true ->
  serializable (setattr o k v) = true.
Proof.
  unfold serializable, setattr. rewrite !forallb_forall. intros H Hv f Hf.
  specialize (H f Hf). destruct (decide (k = fname f)) as [->|Hne].
  - by rewrite lookup_insert_eq.
  - by rewrite lookup_insert_ne.
Qed.

Lemma save_settings_open_fails s :
  hd IoOk (faults s) = IoOpenFails ->
  save_settings s = (Ret false, opened (stamped s)).
Proof.
  intros Hd. rewrite save_settings_unfold. unfold try_except.
  by rewrite write_block_open_fails.
Qed.

Lemma save_settings_transfer_fails s :
  hd IoOk (faults s) = IoTransferFails ->
  save_settings s =
    (Ret false,
     with_fs (<[SETTINGS_FILE (base_dir s) := Truncated]> (fs s))
             (opened (stamped s))).
Proof.
  intros Hd. rewrite save_settings_unfold. unfold try_except.
  by destruct (write_block_transfer_fails (SETTINGS_FILE (base_dir s))
                 (ret true) (stamped s) Hd) as [e ->].
Qed.

Lemma save_settings_ok s :
  hd IoOk (faults s) = IoOk ->
  serializable (settings s) = true ->
  save_settings s =
    (Ret true,
     with_fs (<[SETTINGS_FILE (base_dir s) :=
                  Json (VDict (snapshot (settings (stamped s))))]> (fs s))
             (opened (stamped s))).
Proof.
  intros Hd Hs. rewrite save_settings_unfold. unfold try_except.
  rewrite write_block_ok; [done|done|].
  by apply serializable_setattr.
Qed.

Lemma load_settings_unfold s :
  load_settings s =
    match fs s !! SETTINGS_FILE (base_dir s) with
    | Some _ =>
        match try_except
                (f <- open_r (SETTINGS_FILE (base_dir s)) ;;
                 data <- json_load f ;; o <- UserSettings_of data ;;
                 ret (Some o))
                (fun _ => ret None) s with
        | (Ret (Some o), s') => (Ret o, s')
        | (Ret None, s') => UserSettings_init [] s'
        | (Raise e, s') => (Raise e, s')
        end
    | None => UserSettings_init [] s
    end.
Proof.
  unfold load_settings. cbv [bind get_state path_exists ret].
  destruct (fs s !! SETTINGS_FILE (base_dir s)); [|done].
  by destruct (try_except _ _ s) as [[[o|]|e] s'].
Qed.

Lemma load_settings_readable s kvs :
  readable s (SETTINGS_FILE (base_dir s)) = Some kvs ->
  load_settings s = (Ret (built kvs s), after_build kvs s).
Proof.
  intros Hr. rewrite load_settings_unfold.
  pose proof (read_block_run (SETTINGS_FILE (base_dir s))
                (fun o => ret (Some o)) s) as Hb.
  rewrite Hr in Hb. cbv zeta in Hb. unfold try_except. rewrite Hb.
  unfold readable in Hr.
  destruct (fs s !! SETTINGS_FILE (base_dir s)); [done|].
  by destruct (hd IoOk (faults s)).
Qed.

Lemma load_settings_default s :
  readable s (SETTINGS_FILE (base_dir s)) = None ->
  exists s',
    load_settings s = (Ret (defaults_at (clock s (tick s))), s')
    /\ fs s' = fs s /\ settings s' = settings s.
Proof.
  intros Hr. rewrite load_settings_unfold.
  pose proof (read_block_run (SETTINGS_FILE (base_dir s))
                (fun o => ret (Some o)) s) as Hb.
  rewrite Hr in Hb. cbv zeta in Hb. destruct Hb as [e Hb].
  unfold try_except. rewrite Hb.
  destruct (fs s !! SETTINGS_FILE (base_dir s));
    unfold ret; rewrite UserSettings_default_run; by eexists.
Qed.

Lemma restore_settings_run p s :
  restore_settings p s =
    match readable s p with
    | Some kvs => (Ret true, with_settings (built kvs s) (after_build kvs s))
    | None => (Ret false, opened s)
    end.
Proof.
  unfold restore_settings, try_except.
  pose proof (read_block_run p (fun o => put_settings o ;;; ret true) s) as Hb.
  cbv zeta in Hb. destruct (readable s p) as [kvs|].
  - by rewrite Hb.
  - destruct Hb as [e ->]. done.
Qed.

Lemma import_restore : import_settings = restore_settings.
Proof. done. Qed.

Lemma set_setting_run key v s :
  set_setting key v s =
    if hasattr (settings s) key
    then (Ret true, with_settings (setattr (settings s) key v) s)
    else (Ret false, s).
Proof.
  unfold set_setting. cbv [try_except bind self_settings].
  by destruct (hasattr (settings s) key).
Qed.

(** * The claims *)

(** ** Save, then load *)




(** ** Loading falls back to the defaults *)

Lemma readable_unknown_key s p kvs k :
  fs s !! p = Some (Json (VDict kvs)) ->
  k ∈ kvs.*1 -> is_field k = false ->
  readable s p = None.
Proof.
  intros Hp Hk Hf. unfold readable. rewrite Hp.
  destruct (hd IoOk (faults s)); try done.
  destruct (forallb _ kvs) eqn:Hall; [|done].
  rewrite forallb_forall in Hall.
  apply list_elem_of_fmap in Hk as ([k' v] & -> & Hin).
  apply list_elem_of_In, Hall in Hin. simpl in *. congruence.
Qed.

(** C2: when the settings file is absent, is not a JSON document, or is a
    JSON object with a key that is no field name, [load_settings] returns
    (it does not raise) the default record: every field with a literal
    default holds it. *)
Theorem load_settings_fallback (s : state) :
  let p := SETTINGS_FILE (base_dir s) in
  (fs s !! p = None
   \/ fs s !! p = Some Truncated
   \/ (exists t, fs s !! p = Some (Garbled t))
   \/ (exists kvs k, fs s !! p = Some (Json (VDict kvs))
                     /\ k ∈ kvs.*1 /\ is_field k = false)) ->
  exists o s',
    load_settings s = (Ret o, s')
    /\ o = defaults_at (clock s (tick s))
    /\ forall f v, f ∈ UserSettings_fields -> fdef f = Default v ->
                   o !! fname f = Some v.
Proof.
  intros p Hfile.
  assert (Hr : readable s p = None).
  { destruct Hfile as [H|[H|[[t H]|(kvs & k & H & Hk & Hf)]]].
    - unfold readable. rewrite H. by destruct (hd IoOk (faults s)).
    - unfold readable. rewrite H. by destruct (hd IoOk (faults s)).
    - unfold readable. rewrite H. by destruct (hd IoOk (faults s)).
    - by apply (readable_unknown_key s p kvs k). }
  destruct (load_settings_default s Hr) as (s' & Hl & _ & _).
  exists (defaults_at (clock s (tick s))), s'.
  split; [done|]. split; [done|].
  intros f v Hf Hd. rewrite (defaults_at_lookup _ f Hf).
  unfold default_value. by rewrite Hd.
Qed.

Lemma load_settings_fallback_witness :
  exists o s',
    load_settings not_valid_shape_state = (Ret o, s')
    /\ o = defaults_at (MkDatetime 2026 11 3 12 0 0 0)
    /\ forall f v, f ∈ UserSettings_fields -> fdef f = Default v ->
                   o !! fname f = Some v.
Proof.
  apply (load_settings_fallback not_valid_shape_state).
  right. right. right.
  exists [("not", VStr "valid shape")], "not".
  split; [vm_compute; reflexivity|]. split; [|reflexivity].
  apply list_elem_of_here.
Defined.

(** ** A save that meets an I/O failure *)

(** C3, as stated, fails: when the write fails after [open] succeeded,
    [save_settings] returns false but the settings file, which held a
    complete document, is left cut short. *)
Lemma save_failure_file_counterexample :
  hd IoOk (faults failing_write_state) = IoTransferFails
  /\ (exists v, fs failing_write_state !! "/app/settings.json" = Some (Json v))
  /\ fst (save_settings failing_write_state) = Ret false
  /\ fs (snd (save_settings failing_write_state)) !! "/app/settings.json"
       = Some Truncated
  /\ fs (snd (save_settings failing_write_state)) !! "/app/settings.json"
       <> fs failing_write_state !! "/app/settings.json".
Proof.
  split; [reflexivity|]. split.
  { eexists. vm_compute. reflexivity. }
  split; [vm_compute; reflexivity|]. split; [vm_compute; reflexivity|].
  vm_compute. discriminate.
Qed.

(** C3 (amended): on every I/O failure [save_settings] returns false and
    raises nothing; the files are untouched when [open] is what fails, and
    the settings file is left cut short when the write fails after it. *)
Theorem save_settings_io_failure (s : state) :
  hd IoOk (faults s) <> IoOk ->
  exists s',
    save_settings s = (Ret false, s')
    /\ (hd IoOk (faults s) = IoOpenFails -> fs s' = fs s)
    /\ (hd IoOk (faults s) = IoTransferFails ->
        fs s' = <[SETTINGS_FILE (base_dir s) := Truncated]> (fs s)).
Proof.
  intros Hne. destruct (hd IoOk (faults s)) eqn:Hd; [done| |].
  - eexists. split; [by apply save_settings_open_fails|]. by split.
  - eexists. split; [by apply save_settings_transfer_fails|]. by split.
Qed.

Lemma save_settings_io_failure_witness :
  exists s',
    save_settings failing_open_state = (Ret false, s')
    /\ (hd IoOk (faults failing_open_state) = IoOpenFails ->
        fs s' = fs failing_open_state)
    /\ (hd IoOk (faults failing_open_state) = IoTransferFails ->
        fs s' = <[SETTINGS_FILE (base_dir failing_open_state) := Truncated]>
                  (fs failing_open_state)).
Proof.
  apply (save_settings_io_failure failing_open_state). discriminate.
Defined.

(** C10: a save that fails at [open] or during the write returns false,
    yet the record in memory already carries the timestamp of the
    attempt. *)
Theorem save_failure_stamps_record (s : state) :
  hd IoOk (faults s) <> IoOk ->
  exists s',
    save_settings s = (Ret false, s')
    /\ settings s' =
         <["last_modified" := VStr (isoformat (clock s (tick s)))]> (settings s)
    /\ (settings s !! "last_modified"
          <> Some (VStr (isoformat (clock s (tick s)))) ->
        settings s' <> settings s).
Proof.
  intros Hne.
  assert (Hneq : settings s !! "last_modified"
                   <> Some (VStr (isoformat (clock s (tick s)))) ->
                 <["last_modified" := VStr (isoformat (clock s (tick s)))]>
                   (settings s) <> settings s).
  { intros Hl Heq. apply Hl. rewrite <- Heq. apply lookup_insert_eq. }
  destruct (hd IoOk (faults s)) eqn:Hd; [done| |].
  - eexists. split; [by apply save_settings_open_fails|]. by split.
  - eexists. split; [by apply save_settings_transfer_fails|]. by split.
Qed.

Lemma save_failure_stamps_record_witness :
  exists s',
    save_settings failing_write_state = (Ret false, s')
    /\ settings s' =
         <["last_modified" := VStr "2026-11-03T12:00:01"]>
           (settings failing_write_state)
    /\ (settings failing_write_state !! "last_modified"
          <> Some (VStr "2026-11-03T12:00:01") ->
        settings s' <> settings failing_write_state).
Proof.
  apply (save_failure_stamps_record failing_write_state). discriminate.
Defined.

(** ** Restore and import *)


Lemma readable_Some_inv s p kvs :
  readable s p = Some kvs ->
  hd IoOk (faults s) = IoOk
  /\ fs s !! p = Some (Json (VDict kvs))
  /\ forall k, k ∈ kvs.*1 -> k ∈ field_names.
Proof.
  unfold readable. destruct (hd IoOk (faults s)); try done.
  destruct (fs s !! p) as [[[]| |]|]; try done.
  destruct (forallb _ kvs0) eqn:Hall; [|done]. intros [= ->].
  split; [done|]. split; [done|].
  intros k ([k' v] & -> & Hin)%list_elem_of_fmap. apply is_field_elem.
  rewrite forallb_forall in Hall. by apply (Hall (k', v)), list_elem_of_In.
Qed.






(** ** Getting and setting by key *)





(** ** Validation *)

Lemma validate_settings_run s q sp w mw cs lvl :
  settings s !! "image_default_quality" = Some (VInt q) ->
  settings s !! "image_default_spacing" = Some (VInt sp) ->
  settings s !! "image_watermark_opacity" = Some (VInt w) ->
  settings s !! "performance_max_workers" = Some (VInt mw) ->
  settings s !! "performance_cache_size_mb" = Some (VInt cs) ->
  settings s !! "advanced_log_level" = Some lvl ->
  validate_settings s = (Ret (issues_of q sp w mw cs lvl), s).
Proof.
  intros Hq Hsp Hw Hmw Hcs Hl. unfold validate_settings, issues_of, flag.
  cbv [bind self_settings attr py_getattr py_or py_lt py_gt as_int ret].
  rewrite Hq, Hsp, Hw, Hmw, Hcs, Hl. cbv beta iota.
  destruct (q <? 1), (q >? 100), (sp <? 0), (w <? 0), (w >? 255),
           (mw <? 1), (cs <? 0); reflexivity.
Qed.








(** The declared types matter: nothing checks a value when it is set, and
    on a quality that is a string the comparison raises. *)
Example validate_settings_ill_typed :
  fst ((set_setting "image_default_quality" (VStr "high") ;;;
        validate_settings) example_state) = Raise TypeError.
Proof. vm_compute. reflexivity. Qed.

(** ** When [last_modified] is computed anew *)

Lemma read_only_ret {A} (a : A) : read_only (ret a).
Proof. done. Qed.

Lemma read_only_raise {A} (e : exn) : read_only (raise e : M A).
Proof. done. Qed.

Lemma read_only_bind {A B} (m : M A) (k : A -> M B) :
  read_only m -> (forall a, read_only (k a)) -> read_only (bind m k).
Proof.
  intros Hm Hk s. unfold bind. specialize (Hm s).
  destruct (m s) as [[a|e] s']; simpl in Hm; subst s'; [apply Hk|done].
Qed.

Lemma read_only_self_settings : read_only self_settings.
Proof. done. Qed.

Lemma read_only_attr o k : read_only (attr o k).
Proof. unfold attr. by destruct (py_getattr o k). Qed.

Lemma read_only_as_int v : read_only (as_int v).
Proof. by destruct v. Qed.

Lemma read_only_py_lt v n : read_only (py_lt v n).
Proof.
  apply read_only_bind; [apply read_only_as_int|intros; apply read_only_ret].
Qed.

Lemma read_only_py_gt v n : read_only (py_gt v n).
Proof.
  apply read_only_bind; [apply read_only_as_int|intros; apply read_only_ret].
Qed.

Lemma read_only_py_or a b : read_only a -> read_only b -> read_only (py_or a b).
Proof.
  intros Ha Hb. apply read_only_bind; [done|].
  intros []; [apply read_only_ret|done].
Qed.

Create HintDb read_only.
#[local] Hint Resolve read_only_ret read_only_raise read_only_self_settings
  read_only_attr read_only_py_lt read_only_py_gt read_only_py_or : read_only.

Lemma validate_settings_read_only : read_only validate_settings.
Proof.
  unfold validate_settings.
  repeat (apply read_only_bind; [auto 6 using read_only_bind with read_only|];
          intros ?; cbv zeta).
  apply read_only_ret.
Qed.



Lemma reset_to_defaults_run s :
  reset_to_defaults s =
    (Ret tt, with_settings (defaults_at (clock s (tick s)))
                           (with_tick (S (tick s)) s)).
Proof.
  unfold reset_to_defaults, bind. by rewrite UserSettings_default_run.
Qed.




(** ** Backup, then restore *)





(** * Further properties of the settings store *)

(** ** Records that have every field *)

Lemma complete_defaults d : complete (defaults_at d) = true.
Proof.
  unfold complete. apply forallb_forall. intros f Hf%list_elem_of_In.
  by rewrite (defaults_at_lookup d f Hf).
Qed.

Lemma well_typed_defaults d : well_typed (defaults_at d) = true.
Proof.
  assert (Hall : forallb (fun f => has_type (default_value d f) (fty f))
                         UserSettings_fields = true) by reflexivity.
  rewrite forallb_forall in Hall.
  unfold well_typed. apply forallb_forall. intros f Hf.
  rewrite (defaults_at_lookup d f (proj2 (list_elem_of_In _ _) Hf)).
  by apply Hall.
Qed.

Lemma complete_built kvs s : complete (built kvs s) = true.
Proof.
  unfold complete. apply forallb_forall. intros f Hf%list_elem_of_In.
  by rewrite (built_lookup kvs s f Hf).
Qed.

Lemma complete_lookup o k :
  complete o = true -> k ∈ field_names -> is_Some (o !! k).
Proof.
  unfold complete. rewrite forallb_forall.
  intros Hc (f & Hf%list_elem_of_In & <-)%field_names_elem.
  specialize (Hc f Hf). by destruct (o !! fname f).
Qed.

Lemma complete_setattr o k v :
  complete o = true -> complete (setattr o k v) = true.
Proof.
  unfold complete, setattr. rewrite !forallb_forall. intros H f Hf.
  specialize (H f Hf). destruct (decide (k = fname f)) as [->|Hne].
  - by rewrite lookup_insert_eq.
  - by rewrite lookup_insert_ne.
Qed.

Lemma hasattr_field o k :
  complete o = true -> k ∈ field_names -> hasattr o k = true.
Proof.
  intros Hc Hk. unfold hasattr, py_getattr.
  by destruct (complete_lookup o k Hc Hk) as [v ->].
Qed.

Lemma backup_settings_path s :
  backup_settings s =
    try_except
      (f <- open_w (backup_path s) ;; o <- self_settings ;; v <- asdict o ;;
       json_dump v f ;;; ret (Some (backup_path s)))
      (fun _ => ret None) (with_tick (S (tick s)) s).
Proof. done. Qed.

(** The three outcomes of a guarded write of the record to [p]. *)
Lemma write_try_cases {A} (p : string) (a b : A) (s : state) :
  let r := try_except
             (f <- open_w p ;; o <- self_settings ;; v <- asdict o ;;
              json_dump v f ;;; ret a)
             (fun _ => ret b) s in
  let cut := with_fs (<[p := Truncated]> (fs s)) (opened s) in
  (hd IoOk (faults s) = IoOpenFails /\ r = (Ret b, opened s))
  \/ (hd IoOk (faults s) <> IoOpenFails /\ r = (Ret b, cut))
  \/ (hd IoOk (faults s) = IoOk /\
      exists v, asdict (settings s) cut = (Ret v, cut)
                /\ json_serializable v = true
                /\ r = (Ret a, with_fs (<[p := Json v]> (fs s)) (opened s))).
Proof.
  cbv zeta. unfold try_except.
  destruct (write_block_cases p (ret a) s)
    as [[Hd ->]|[[Hd [e ->]]|[Hd (v & Ha & Hj & ->)]]].
  - by left.
  - right. by left.
  - right. right. split; [done|]. by exists v.
Qed.

Lemma load_settings_total (s : state) :
  exists o s1,
    load_settings s = (Ret o, s1)
    /\ fs s1 = fs s
    /\ complete o = true
    /\ (forall k, k ∉ field_names -> o !! k = None).
Proof.
  destruct (readable s (SETTINGS_FILE (base_dir s))) as [kvs|] eqn:Hr.
  - exists (built kvs s), (after_build kvs s).
    rewrite (load_settings_readable s kvs Hr).
    split; [done|]. split; [done|].
    split; [apply complete_built|]. intros k Hk. by apply built_other.
  - destruct (load_settings_default s Hr) as (s1 & Hl & Hfs & _).
    exists (defaults_at (clock s (tick s))), s1. rewrite Hl.
    split; [done|]. split; [done|].
    split; [apply complete_defaults|]. intros k Hk. by apply defaults_at_other.
Qed.

(** ** Construction and loading *)


(** ** Which operations touch the files *)

(** X2: only [save_settings], [backup_settings] and [export_settings]
    write: every other operation leaves every file as it was, whether it
    succeeds, fails or raises. *)
Theorem readers_leave_files (s : state) (p key : string) (v d : value) :
  fs (snd (load_settings s)) = fs s
  /\ fs (snd (restore_settings p s)) = fs s
  /\ fs (snd (import_settings p s)) = fs s
  /\ fs (snd (reset_to_defaults s)) = fs s
  /\ fs (snd (set_setting key v s)) = fs s
  /\ fs (snd (get_setting key d s)) = fs s
  /\ fs (snd (validate_settings s)) = fs s
  /\ fs (snd (get_all_settings s)) = fs s.
Proof.
  split; [|split; [|split; [|split; [|split; [|split; [|split]]]]]].
  - destruct (load_settings_total s) as (o & s1 & -> & Hfs & _). done.
  - rewrite restore_settings_run. by destruct (readable s p).
  - rewrite import_restore, restore_settings_run. by destruct (readable s p).
  - by rewrite reset_to_defaults_run.
  - rewrite set_setting_run. by destruct (hasattr (settings s) key).
  - done.
  - by rewrite validate_settings_read_only.
  - unfold get_all_settings, bind, self_settings. by rewrite asdict_state.
Qed.

Lemma string_app_inv_head (a b c : string) : a +:+ b = a +:+ c -> b = c.
Proof.
  induction a as [|x a IH]; simpl; [done|]. intros [= H]. by apply IH.
Qed.

Lemma backup_path_not_settings_file s :
  backup_path s <> SETTINGS_FILE (base_dir s).
Proof.
  unfold backup_path, SETTINGS_FILE, path_join. intros H.
  apply string_app_inv_head, string_app_inv_head in H.
  simpl in H. discriminate.
Qed.

Lemma write_try_other_file {A} (p q : string) (a b : A) (s : state) :
  q <> p ->
  fs (snd (try_except
             (f <- open_w p ;; o <- self_settings ;; v <- asdict o ;;
              json_dump v f ;;; ret a)
             (fun _ => ret b) s)) !! q = fs s !! q.
Proof.
  intros Hq.
  destruct (write_try_cases p a b s)
    as [[_ ->]|[[_ ->]|[_ (v & _ & _ & ->)]]];
    cbn [snd fs with_fs opened]; [done|by rewrite lookup_insert_ne..].
Qed.

(** X3: each writing operation touches one path only:
    [save_settings] the settings file, [export_settings] the path it is
    given, [backup_settings] its timestamped file, which is never the
    settings file; every other file is as it was, on success and on
    failure. *)
Theorem writers_touch_one_file (s : state) (p q : string) :
  (q <> SETTINGS_FILE (base_dir s) ->
   fs (snd (save_settings s)) !! q = fs s !! q)
  /\ (q <> p -> fs (snd (export_settings p s)) !! q = fs s !! q)
  /\ (q <> backup_path s -> fs (snd (backup_settings s)) !! q = fs s !! q)
  /\ backup_path s <> SETTINGS_FILE (base_dir s)
  /\ fs (snd (backup_settings s)) !! SETTINGS_FILE (base_dir s)
       = fs s !! SETTINGS_FILE (base_dir s).
Proof.
  assert (Hb : forall q', q' <> backup_path s ->
                          fs (snd (backup_settings s)) !! q' = fs s !! q').
  { intros q' Hq. rewrite backup_settings_path.
    exact (write_try_other_file (backup_path s) q' (Some (backup_path s)) None
             (with_tick (S (tick s)) s) Hq). }
  split; [|split; [|split; [|split]]].
  - intros Hq. rewrite save_settings_unfold.
    exact (write_try_other_file (SETTINGS_FILE (base_dir s)) q true false
             (stamped s) Hq).
  - intros Hq. exact (write_try_other_file p q true false s Hq).
  - apply Hb.
  - apply backup_path_not_settings_file.
  - apply Hb. intros H. by apply (backup_path_not_settings_file s).
Qed.

Lemma writers_touch_one_file_witness :
  fs (snd (save_settings saved_state)) !! "/tmp/preset.json"
    = fs saved_state !! "/tmp/preset.json".
Proof.
  refine (proj1 (writers_touch_one_file saved_state "/tmp/preset.json"
                   "/tmp/preset.json") _).
  vm_compute. discriminate.
Defined.

(** ** No operation but validation raises *)


(** ** Reset *)

(** X5: the defaults are valid: after [reset_to_defaults], from any state,
    [validate_settings] returns the empty mapping; the reset record is the
    default record and has every field. *)
Theorem reset_then_validate (s : state) :
  exists s1,
    reset_to_defaults s = (Ret tt, s1)
    /\ settings s1 = defaults_at (clock s (tick s))
    /\ well_typed (settings s1) = true
    /\ validate_settings s1 = (Ret ∅, s1).
Proof.
  eexists. split; [apply reset_to_defaults_run|].
  cbn [settings with_settings]. split; [done|]. split.
  - apply well_typed_defaults.
  - rewrite (validate_settings_run _ 95 10 128 4 128 (VStr "INFO"));
      [by f_equal|cbn [settings with_settings]..].
    + exact (defaults_at_nth _ 2 _ eq_refl).
    + exact (defaults_at_nth _ 1 _ eq_refl).
    + exact (defaults_at_nth _ 8 _ eq_refl).
    + exact (defaults_at_nth _ 24 _ eq_refl).
    + exact (defaults_at_nth _ 27 _ eq_refl).
    + exact (defaults_at_nth _ 29 _ eq_refl).
Qed.

(** ** Setting, then getting *)



(** ** Export, then import *)



(** ** What reaches the disk *)





Lemma snapshot_unserializable o k v :
  k ∈ field_names -> o !! k = Some v -> json_serializable v = false ->
  json_serializable (VDict (snapshot o)) = false.
Proof.
  intros (f & Hf & <-)%field_names_elem Hk Hv.
  rewrite json_serializable_dict. apply not_true_iff_false. intros Hall.
  rewrite forallb_forall in Hall.
  assert (Hin : In (fname f, v) (snapshot o)).
  { unfold snapshot. apply in_map_iff. exists f. rewrite Hk.
    split; [done|by apply list_elem_of_In]. }
  apply Hall in Hin. simpl in Hin. congruence.
Qed.

(** X10: nothing checks that a value can be written: once a field holds a
    value the JSON encoder rejects, [save_settings] (unless [open] itself
    fails) returns false and leaves the settings file cut short, whatever
    it held before. *)
Theorem unserializable_value_loses_file (s : state) (key : string) (v : value) :
  complete (settings s) = true ->
  key ∈ field_names ->
  key <> "last_modified" ->
  json_serializable v = false ->
  hd IoOk (faults s) <> IoOpenFails ->
  exists s1 s2,
    set_setting key v s = (Ret true, s1)
    /\ save_settings s1 = (Ret false, s2)
    /\ fs s2 !! SETTINGS_FILE (base_dir s) = Some Truncated.
Proof.
  intros Hc Hk Hne Hv Hd.
  set (s1 := with_settings (setattr (settings s) key v) s).
  assert (Hc1 : complete (settings (stamped s1)) = true).
  { unfold stamped. cbn [settings with_settings].
    by do 2 apply complete_setattr. }
  assert (Hkv : settings (stamped s1) !! key = Some v).
  { unfold stamped, s1, setattr. cbn [settings with_settings].
    rewrite lookup_insert_ne by done. apply lookup_insert_eq. }
  exists s1. rewrite set_setting_run, (hasattr_field _ _ Hc Hk).
  rewrite save_settings_unfold.
  destruct (write_try_cases (SETTINGS_FILE (base_dir s1)) true false (stamped s1))
    as [[Hd' _]|[[_ ->]|[_ (w & Ha & Hj & _)]]].
  - by destruct Hd.
  - eexists. split; [done|]. split; [done|].
    cbn [fs with_fs]. apply lookup_insert_eq.
  - rewrite (asdict_run _ _ Hc1) in Ha. injection Ha as Hw. subst w.
    exfalso. apply (eq_true_false_abs _ Hj).
    exact (snapshot_unserializable _ key v Hk Hkv Hv).
Qed.

Lemma unserializable_value_loses_file_witness :
  (exists w, fs saved_state !! SETTINGS_FILE (base_dir saved_state)
             = Some (Json w))
  /\ exists s1 s2,
       set_setting "image_watermark_text" (VObject "bytes") saved_state
         = (Ret true, s1)
       /\ save_settings s1 = (Ret false, s2)
       /\ fs s2 !! SETTINGS_FILE (base_dir saved_state) = Some Truncated.
Proof.
  split; [eexists; vm_compute; reflexivity|].
  apply (unserializable_value_loses_file saved_state "image_watermark_text"
           (VObject "bytes")).
  - vm_compute. reflexivity.
  - apply is_field_elem. reflexivity.
  - discriminate.
  - reflexivity.
  - vm_compute. discriminate.
Defined.

(** * The configuration module *)

(** ** File categories *)

Lemma formats_disjoint :
  SUPPORTED_IMAGE_FORMATS ∩ SUPPORTED_TEXT_FORMATS = ∅
  /\ SUPPORTED_IMAGE_FORMATS ∩ SUPPORTED_DOCUMENT_FORMATS = ∅
  /\ SUPPORTED_TEXT_FORMATS ∩ SUPPORTED_DOCUMENT_FORMATS = ∅.
Proof.
  repeat split;
    match goal with
    | |- ?P => apply (bool_decide_unpack P); vm_compute; reflexivity
    end.
Qed.

Lemma category_cases (I T D : gset string) (x : string) :
  I ∩ T = ∅ -> I ∩ D = ∅ -> T ∩ D = ∅ ->
  let cat := if bool_decide (x ∈ I) then "image"
             else if bool_decide (x ∈ T) then "text"
             else if bool_decide (x ∈ D) then "document"
             else "unknown" in
  (bool_decide (x ∈ I ∪ T ∪ D) = true <-> cat <> "unknown")
  /\ (cat = "image" <-> x ∈ I)
  /\ (cat = "text" <-> x ∈ T)
  /\ (cat = "document" <-> x ∈ D).
Proof.
  intros Hit Hid Htd. cbv zeta. rewrite bool_decide_eq_true.
  assert (Hit' : x ∈ I -> x ∈ T -> False) by set_solver.
  assert (Hid' : x ∈ I -> x ∈ D -> False) by set_solver.
  assert (Htd' : x ∈ T -> x ∈ D -> False) by set_solver.
  rewrite !elem_of_union. clear Hit Hid Htd.
  destruct (bool_decide (x ∈ I)) eqn:Ei;
    [apply bool_decide_eq_true in Ei|apply bool_decide_eq_false in Ei];
  (destruct (bool_decide (x ∈ T)) eqn:Et;
    [apply bool_decide_eq_true in Et|apply bool_decide_eq_false in Et]);
  (destruct (bool_decide (x ∈ D)) eqn:Ed;
    [apply bool_decide_eq_true in Ed|apply bool_decide_eq_false in Ed]);
  repeat split; intros; try discriminate; tauto.
Qed.

(** X11: a file is supported iff its category is not "unknown", and the
    category is "image", "text" or "document" exactly when the lower-cased
    suffix lies in the set of that name: the three sets share no suffix,
    so the order of the tests decides nothing. *)
Theorem file_category_spec `{Builtins} (filepath : string) :
  let ext := py_lower (path_suffix filepath) in
  (is_supported_file filepath = true <-> get_file_category filepath <> "unknown")
  /\ (get_file_category filepath = "image" <-> ext ∈ SUPPORTED_IMAGE_FORMATS)
  /\ (get_file_category filepath = "text" <-> ext ∈ SUPPORTED_TEXT_FORMATS)
  /\ (get_file_category filepath = "document"
      <-> ext ∈ SUPPORTED_DOCUMENT_FORMATS).
Proof.
  intros ext. destruct formats_disjoint as (Hit & Hid & Htd).
  exact (category_cases _ _ _ ext Hit Hid Htd).
Qed.

(** ** Applying the record to the classes *)

Lemma settings_attr_run (a : app) (k : string) :
  is_Some (UserSettings_class !! k) ->
  settings_attr k a = (Ret (resolved (settings (core a)) k), a).
Proof.
  intros [v Hv]. destruct a as [s c].
  unfold settings_attr, lift, resolved. cbv [bind self_settings attr core cfg].
  unfold py_getattr. rewrite Hv. by destruct (settings s !! k).
Qed.

Ltac class_default := eexists; vm_compute; reflexivity.

Lemma apply_to_config_run (a : app) :
  apply_to_config a =
    (Ret tt, MkApp (core a) (applied (settings (core a)) (cfg a))).
Proof.
  destruct a as [s c]. unfold apply_to_config, applied.
  repeat (unfold sbind at 1; rewrite settings_attr_run by class_default;
          unfold sbind at 1;
          cbn [set_ImageConfig set_TextConfig set_OutputConfig
               core cfg ImageConfig TextConfig OutputConfig]).
  reflexivity.
Qed.

Ltac lookup_inserts :=
  repeat (rewrite lookup_insert_eq
          || (rewrite lookup_insert_ne by (discriminate || congruence))).

(** X12: [apply_to_config] never raises, whatever the record holds (a
    field missing on the instance reads as its class default); it leaves
    the manager as it is, gives each of the eleven class attributes it
    assigns the value of its field and every other attribute of the three
    classes the value it had; running it again changes nothing. *)
Theorem apply_to_config_spec (a : app) :
  exists c',
    apply_to_config a = (Ret tt, MkApp (core a) c')
    /\ (forall cls attr field,
          (cls, attr, field) ∈ applied_settings ->
          class_ns cls c' !! attr
            = CVal <$> py_getattr (settings (core a)) field)
    /\ (forall cls attr,
          (forall field, (cls, attr, field) ∉ applied_settings) ->
          class_ns cls c' !! attr = class_ns cls (cfg a) !! attr)
    /\ apply_to_config (MkApp (core a) c') = (Ret tt, MkApp (core a) c').
Proof.
  exists (applied (settings (core a)) (cfg a)).
  split; [apply apply_to_config_run|]. split; [|split].
  - intros cls attr field Hin.
    assert (Hres : forall k, is_Some (UserSettings_class !! k) ->
              py_getattr (settings (core a)) k
              = Some (resolved (settings (core a)) k)).
    { intros k [v Hv]. unfold resolved, py_getattr. rewrite Hv.
      by destruct (settings (core a) !! k). }
    unfold applied_settings in Hin.
    repeat (apply elem_of_cons in Hin as [[= -> -> ->]|Hin];
            [rewrite Hres by class_default; cbn [class_ns applied fmap option_fmap
               option_map ImageConfig TextConfig OutputConfig];
             by lookup_inserts|]).
    by apply elem_of_nil in Hin.
  - intros cls attr Hout.
    assert (Hne : forall field k, (cls, k, field) ∈ applied_settings -> k <> attr).
    { intros field k Hin ->. by apply (Hout field). }
    destruct cls; cbn [class_ns applied ImageConfig TextConfig OutputConfig];
      repeat (rewrite lookup_insert_ne;
              [|eapply Hne; unfold applied_settings;
                repeat (first [apply list_elem_of_here|apply list_elem_of_further])]);
      reflexivity.
  - rewrite apply_to_config_run. cbn [core cfg]. f_equal. f_equal.
    unfold applied. cbn [ImageConfig TextConfig OutputConfig].
    f_equal; apply map_eq; intros k; rewrite !lookup_insert;
      repeat case_decide; congruence.
Qed.

Lemma apply_to_config_spec_witness :
  exists c',
    apply_to_config (MkApp example_state config_module)
      = (Ret tt, MkApp example_state c')
    /\ ImageConfig c' !! "DEFAULT_QUALITY" = Some (CVal (VInt 95))
    /\ ImageConfig c' !! "MAX_GRID_SIZE" = Some (CVal (VInt 100)).
Proof.
  destruct (apply_to_config_spec (MkApp example_state config_module))
    as (c' & Hrun & Hset & Hkeep & _).
  exists c'. split; [exact Hrun|]. split.
  - change (ImageConfig c') with (class_ns CImageConfig c').
    rewrite (Hset CImageConfig "DEFAULT_QUALITY" "image_default_quality").
    + vm_compute. reflexivity.
    + unfold applied_settings.
      repeat (first [apply list_elem_of_here|apply list_elem_of_further]).
  - change (ImageConfig c') with (class_ns CImageConfig c').
    rewrite (Hkeep CImageConfig "MAX_GRID_SIZE").
    + vm_compute. reflexivity.
    + intros field Hin. unfold applied_settings in Hin.
      repeat (apply elem_of_cons in Hin as [Hin|Hin]; [discriminate|]).
      by apply elem_of_nil in Hin.
Defined.

(** X13: the defaults of the record are those of the classes: applying a
    default record to the classes as [config.py] defines them changes
    none of their attributes. *)
Theorem apply_defaults_keeps_config (a : app) (d : datetime) :
  settings (core a) = defaults_at d ->
  cfg a = config_module ->
  apply_to_config a = (Ret tt, a).
Proof.
  intros Hs Hc. rewrite apply_to_config_run. destruct a as [s c].
  cbn [core cfg] in *. subst c. f_equal. f_equal.
  assert (Hres : forall (i : nat) k t v,
            UserSettings_fields !! i = Some (MkField k t (Default v)) ->
            resolved (settings s) k = v).
  { intros i k t v Hi. unfold resolved, py_getattr. rewrite Hs.
    pose proof (defaults_at_nth d i _ Hi) as H.
    cbn [fname default_value fdef] in H. by rewrite H. }
  unfold applied, config_module.
  cbn [ImageConfig TextConfig OutputConfig].
  rewrite (Hres 0%nat _ _ _ eq_refl), (Hres 1%nat _ _ _ eq_refl),
    (Hres 2%nat _ _ _ eq_refl), (Hres 10%nat _ _ _ eq_refl),
    (Hres 9%nat _ _ _ eq_refl), (Hres 11%nat _ _ _ eq_refl),
    (Hres 12%nat _ _ _ eq_refl), (Hres 13%nat _ _ _ eq_refl),
    (Hres 15%nat _ _ _ eq_refl), (Hres 16%nat _ _ _ eq_refl),
    (Hres 17%nat _ _ _ eq_refl).
  f_equal; vm_compute; reflexivity.
Qed.

Lemma apply_defaults_keeps_config_witness :
  apply_to_config (MkApp example_state config_module)
    = (Ret tt, MkApp example_state config_module).
Proof.
  apply (apply_defaults_keeps_config (MkApp example_state config_module)
           (MkDatetime 2024 1 1 9 30 0 0)); reflexivity.
Defined.

(** * The settings menu

    The statements hold for every sequence of lines typed; the end of
    input and an interrupt at a prompt are outside the model. *)

(** ** Records the menu keeps valid *)








(** ** Rules for the editors *)

Section EditorRules.
Context `{Builtins} (u0 : ui).



Lemma spec_weaken {A} (m : St ui A) (Q R : A -> Prop) :
  spec u0 m Q -> (forall a, Q a -> R a) -> spec u0 m R.
Proof.
  intros Hm Hqr o md n Hg.
  destruct (Hm o md n Hg) as (a & o1 & md1 & n1 & Hrun & Hg1 & Hmd1 & Hn1 & Hq).
  exists a, o1, md1, n1. repeat split; auto.
Qed.













End EditorRules.

(** ** The editors keep the record valid *)





Section Editors.
Context `{Builtins} (u0 : ui).







End Editors.



(** * The dialogs of the menu

    As for the editors, the lines typed are given: a dialog that is said
    never to raise does so for every sequence of lines, the end of input
    and an interrupt at a prompt being outside the model. *)

Lemma liftM_run {A} (m : M A) (u : ui) :
  liftM m u =
    (fst (m (manager u)),
     MkUi (MkApp (snd (m (manager u))) (cfg (ui_app u)))
          (modified u) (answers u) (asked u)).
Proof. unfold liftM, liftA, lift, manager. by destruct (m (core (ui_app u))). Qed.

Lemma ends_with_refl (s : string) : ends_with s s = true.
Proof. destruct s; cbn [ends_with]; by rewrite String.eqb_refl. Qed.

Lemma ends_with_app (suffix p : string) : ends_with suffix (p +:+ suffix) = true.
Proof.
  induction p as [|x p IH]; [apply ends_with_refl|].
  change (String.eqb (String x (p +:+ suffix)) suffix
          || ends_with suffix (p +:+ suffix) = true).
  rewrite IH. apply orb_true_r.
Qed.

Lemma json_path_ends (p : string) : ends_with ".json" (json_path p) = true.
Proof.
  unfold json_path. destruct (ends_with ".json" p) eqn:E; [done|].
  apply ends_with_app.
Qed.

Lemma export_settings_cases (p : string) (s : state) :
  exists b s',
    export_settings p s = (Ret b, s')
    /\ settings s' = settings s
    /\ (forall q, q <> p -> fs s' !! q = fs s !! q).
Proof.
  unfold export_settings.
  destruct (write_try_cases p true false s)
    as [[_ ->]|[[_ ->]|[_ (w & _ & _ & ->)]]];
    eexists _, _; (split; [done|]); (split; [done|]); intros q Hq;
    cbn [fs with_fs opened]; by rewrite ?lookup_insert_ne.
Qed.

(** ** Export *)

Lemma export_dialog_cases `{Builtins} (u : ui) :
  exists u',
    SettingsUI.export_settings u = (Ret tt, u')
    /\ settings (manager u') = settings (manager u)
    /\ cfg (ui_app u') = cfg (ui_app u)
    /\ modified u' = modified u
    /\ (typed u = "" -> manager u' = manager u)
    /\ (forall q, fs (manager u') !! q <> fs (manager u) !! q ->
          q = json_path (typed u) /\ ends_with ".json" q = true)
    /\ (typed u <> "" ->
        serializable (settings (manager u)) = true ->
        hd IoOk (faults (manager u)) = IoOk ->
        fs (manager u') !! json_path (typed u)
          = Some (Json (VDict (snapshot (settings (manager u)))))).
Proof.
  unfold SettingsUI.export_settings. unfold sbind at 1, input. cbv beta iota.
  change (py_strip (answers u (asked u))) with (typed u).
  change (if ends_with ".json" (typed u) then typed u else typed u +:+ ".json")
    with (json_path (typed u)).
  destruct (String.eqb_spec (typed u) "") as [He|Hne].
  - eexists. split; [reflexivity|]. unfold manager.
    cbn [ui_app modified core cfg].
    split; [done|]. split; [done|]. split; [done|]. split; [done|].
    split; [by intros q []|]. by intros [].
  - unfold sbind. rewrite liftM_run. unfold manager.
    cbn [ui_app modified answers asked core cfg].
    destruct (export_settings_cases (json_path (typed u)) (core (ui_app u)))
      as (b & s' & Hrun & Hset & Hfs).
    rewrite Hrun. cbn [fst snd]. eexists. split; [reflexivity|].
    cbn [ui_app modified core cfg].
    split; [done|]. split; [done|]. split; [done|]. split; [done|]. split.
    + intros q Hq. destruct (decide (q = json_path (typed u))) as [->|Hd].
      * split; [done|apply json_path_ends].
      * by destruct Hq; apply Hfs.
    + intros _ Hs Hd. unfold export_settings, try_except in Hrun.
      rewrite write_block_ok in Hrun by done. injection Hrun as _ <-.
      cbn [fs with_fs]. apply lookup_insert_eq.
Qed.

(** X15: the export dialog never raises and writes at most one file, whose
    name ends in [.json]: the path typed, with [.json] appended unless it
    ends so already.  An empty answer writes nothing.  The record, the
    classes and the flag are as before; with serializable values and no
    I/O failure the file holds the record. *)
Theorem export_dialog_writes_json `{Builtins} (u : ui) :
  exists u',
    SettingsUI.export_settings u = (Ret tt, u')
    /\ settings (manager u') = settings (manager u)
    /\ cfg (ui_app u') = cfg (ui_app u)
    /\ modified u' = modified u
    /\ (typed u = "" -> manager u' = manager u)
    /\ (forall q, fs (manager u') !! q <> fs (manager u) !! q ->
          q = json_path (typed u) /\ ends_with ".json" q = true)
    /\ (typed u <> "" ->
        serializable (settings (manager u)) = true ->
        hd IoOk (faults (manager u)) = IoOk ->
        fs (manager u') !! json_path (typed u)
          = Some (Json (VDict (snapshot (settings (manager u)))))).
Proof. apply export_dialog_cases. Qed.

Lemma export_dialog_writes_json_witness :
  exists u',
    @SettingsUI.export_settings example_builtins
       (dialog_ui example_state false "preset" "") = (Ret tt, u')
    /\ fs (manager u') !! "preset.json"
         = Some (Json (VDict (snapshot (settings example_state)))).
Proof.
  destruct (@export_dialog_writes_json example_builtins
              (dialog_ui example_state false "preset" ""))
    as (u' & Hrun & _ & _ & _ & _ & _ & Hfile).
  exists u'. split; [exact Hrun|]. apply Hfile.
  - vm_compute. discriminate.
  - vm_compute. reflexivity.
  - vm_compute. reflexivity.
Defined.

(** ** Import and restore *)

Lemma read_dialog_cases (p : string) (s : state) :
  exists b s',
    restore_settings p s = (Ret b, s')
    /\ fs s' = fs s
    /\ (b = false -> settings s' = settings s).
Proof.
  rewrite restore_settings_run. destruct (readable s p); by eexists _, _.
Qed.

Lemma import_dialog_cases `{Builtins} (u : ui) :
  exists u',
    SettingsUI.import_settings u = (Ret tt, u')
    /\ fs (manager u') = fs (manager u)
    /\ cfg (ui_app u') = cfg (ui_app u)
    /\ (typed_path u = "" \/ fs (manager u) !! typed_path u = None
        \/ confirmation u <> "y" ->
        manager u' = manager u /\ modified u' = modified u)
    /\ (typed_path u <> "" -> is_Some (fs (manager u) !! typed_path u) ->
        confirmation u = "y" ->
        exists b,
          import_settings (typed_path u) (manager u) = (Ret b, manager u')
          /\ modified u' = (if b then false else modified u)
          /\ (b = false -> settings (manager u') = settings (manager u))).
Proof.
  unfold SettingsUI.import_settings. unfold sbind at 1, input. cbv beta iota.
  change (strip_char dquote (py_strip (answers u (asked u))))
    with (typed_path u).
  destruct (String.eqb_spec (typed_path u) "") as [He|Hne].
  { eexists. split; [reflexivity|]. unfold manager.
    cbn [ui_app modified core cfg].
    split; [done|]. split; [done|]. split; [done|]. by intros []. }
  unfold sbind at 1. rewrite liftM_run. unfold manager, path_exists.
  cbn [ui_app modified answers asked core cfg fst snd].
  destruct (fs (core (ui_app u)) !! typed_path u) as [c|] eqn:Hp; cbn [negb].
  2:{ eexists. split; [reflexivity|]. cbn [ui_app modified core cfg].
      split; [done|]. split; [done|]. split; [done|].
      intros _ [? [=]]. }
  unfold sbind at 1, input. cbv beta iota.
  cbn [ui_app modified answers asked core cfg].
  change (py_lower (answers u (S (asked u)))) with (confirmation u).
  destruct (String.eqb_spec (confirmation u) "y") as [Hy|Hn].
  2:{ eexists. split; [reflexivity|]. cbn [ui_app modified core cfg].
      split; [done|]. split; [done|]. split; [done|].
      intros _ _ Hy. by destruct Hn. }
  unfold sbind. rewrite liftM_run. unfold manager.
  cbn [ui_app modified answers asked core cfg]. rewrite import_restore.
  destruct (read_dialog_cases (typed_path u) (core (ui_app u)))
    as (b & s' & Hrun & Hfs & Hset).
  rewrite Hrun. cbn [fst snd].
  destruct b; cbn [when_ set_modified sret]; (eexists; split; [reflexivity|]);
    cbn [ui_app modified core cfg];
    (split; [done|]); (split; [done|]);
    (split; [intros [?|[[=]|?]]; done|]); intros _ _ _.
  - by exists true.
  - by exists false.
Qed.






(** ** Reset *)




(** ** Leaving the menu *)

Lemma save_settings_returns (s : state) :
  exists b s', save_settings s = (Ret b, s').
Proof.
  rewrite save_settings_unfold.
  destruct (write_try_cases (SETTINGS_FILE (base_dir s)) true false (stamped s))
    as [[_ ->]|[[_ ->]|[_ (w & _ & _ & ->)]]]; by eexists _, _.
Qed.

(** X19: leaving the menu.  With no unsaved change the exit is immediate:
    nothing is read, written or applied.  Otherwise option [1] saves and,
    only when the save succeeded, applies the record to the classes and
    leaves; after a failed save the menu stays open and the classes are
    as before.  Any other option leaves the manager and the classes as
    they are, so leaving without saving (option [2], confirmed by [y])
    does not undo the edits made to the record in memory. *)
Theorem exit_settings_spec `{Builtins} (u : ui) :
  exists b u',
    exit_settings u = (Ret b, u')
    /\ modified u' = modified u
    /\ (modified u = false -> b = true /\ u' = u)
    /\ (modified u = true -> typed u = "1" ->
        save_settings (manager u) = (Ret b, manager u')
        /\ cfg (ui_app u')
             = (if b then applied (settings (manager u')) (cfg (ui_app u))
                else cfg (ui_app u)))
    /\ (modified u = true -> typed u <> "1" ->
        ui_app u' = ui_app u
        /\ (b = true <-> typed u = "2" /\ confirmation u = "y")).
Proof.
  unfold exit_settings. unfold sbind at 1, get_modified. cbv beta iota.
  destruct (modified u) eqn:Hm.
  2:{ exists true, u. split; [reflexivity|]. rewrite Hm.
      split; [done|]. split; [done|]. split; intros [=]. }
  unfold sbind at 1, input. cbv beta iota.
  change (py_strip (answers u (asked u))) with (typed u).
  destruct (String.eqb_spec (typed u) "1") as [H1|H1].
  { unfold sbind at 1. rewrite liftM_run. unfold manager.
    cbn [ui_app modified answers asked core cfg].
    destruct (save_settings_returns (core (ui_app u))) as (b & s' & Hrun).
    rewrite Hrun. cbn [fst snd]. destruct b.
    - unfold sbind, liftA. cbn [ui_app modified answers asked].
      rewrite apply_to_config_run. cbn [core cfg sret].
      eexists _, _. split; [reflexivity|]. cbn [ui_app modified core cfg].
      split; [done|]. split; [intros [=]|]. split; [done|]. by intros _ [].
    - eexists _, _. split; [reflexivity|]. cbn [ui_app modified core cfg].
      split; [done|]. split; [intros [=]|]. split; [done|]. by intros _ []. }
  destruct (String.eqb_spec (typed u) "2") as [H2|H2].
  { unfold sbind, input. cbv beta iota.
    cbn [ui_app modified answers asked].
    change (py_lower (answers u (S (asked u)))) with (confirmation u).
    destruct (String.eqb_spec (confirmation u) "y") as [Hy|Hy];
      (eexists _, _; split; [reflexivity|]); cbn [ui_app modified];
      (split; [done|]); (split; [intros [=]|]); (split; [by intros _ ?|]);
      intros _ _; (split; [done|]).
    - done.
    - split; [intros [=]|]. by intros [_ ?]. }
  eexists _, _. split; [reflexivity|]. cbn [ui_app modified].
  split; [done|]. split; [intros [=]|]. split; [by intros _ ?|].
  intros _ _. split; [done|]. split; [intros [=]|]. by intros [? _].
Qed.

Lemma exit_settings_spec_witness :
  exists u',
    @exit_settings example_builtins (dialog_ui example_state true "1" "")
      = (Ret true, u')
    /\ cfg (ui_app u') = applied (settings (manager u')) config_module.
Proof.
  destruct (@exit_settings_spec example_builtins
              (dialog_ui example_state true "1" ""))
    as (b & u' & Hrun & _ & _ & Hsave & _).
  destruct Hsave as (Hs & Hc); [reflexivity|vm_compute; reflexivity|].
  change (manager (dialog_ui example_state true "1" "")) with example_state in Hs.
  change (cfg (ui_app (dialog_ui example_state true "1" "")))
    with config_module in Hc.
  rewrite save_settings_ok in Hs by (vm_compute; reflexivity).
  pose proof (f_equal fst Hs) as Hb. cbn [fst] in Hb. injection Hb as <-.
  exists u'. split; [exact Hrun|exact Hc].
Defined.

(** ** An import is not saved by leaving *)

(** X20: what the import dialog loads is not saved by leaving the menu:
    a successful import clears the flag, so [exit_settings] then returns
    true at once; the files and the classes are as they were before the
    import, also when there were unsaved edits. *)
Theorem import_then_exit_saves_nothing `{Builtins} (u : ui)
    (kvs : list (string * value)) :
  typed_path u <> "" ->
  readable (manager u) (typed_path u) = Some kvs ->
  confirmation u = "y" ->
  exists u1,
    SettingsUI.import_settings u = (Ret tt, u1)
    /\ settings (manager u1) = built kvs (manager u)
    /\ exit_settings u1 = (Ret true, u1)
    /\ fs (manager u1) = fs (manager u)
    /\ cfg (ui_app u1) = cfg (ui_app u).
Proof.
  intros Hne Hr Hy.
  destruct (import_dialog_cases u) as (u1 & Hrun & Hfs & Hcfg & _ & Hyes).
  destruct (readable_Some_inv _ _ _ Hr) as (_ & Hp & _).
  destruct (Hyes Hne (mk_is_Some _ _ Hp) Hy) as (b & Himp & Hmod & _).
  rewrite import_restore, restore_settings_run, Hr in Himp.
  injection Himp as <- Hs. exists u1. split; [done|].
  split; [by rewrite <- Hs|]. split; [|done].
  unfold exit_settings, sbind, get_modified. by rewrite Hmod.
Qed.

Lemma import_then_exit_saves_nothing_witness :
  exists u1,
    @SettingsUI.import_settings example_builtins
       (dialog_ui partial_preset_state true (quoted "/tmp/preset.json") "y")
      = (Ret tt, u1)
    /\ settings (manager u1)
         = built [("image_default_quality", VStr "high")] partial_preset_state
    /\ @exit_settings example_builtins u1 = (Ret true, u1)
    /\ fs (manager u1) = fs partial_preset_state
    /\ cfg (ui_app u1) = config_module.
Proof.
  apply (@import_then_exit_saves_nothing example_builtins
           (dialog_ui partial_preset_state true (quoted "/tmp/preset.json") "y")
           [("image_default_quality", VStr "high")]).
  - vm_compute. discriminate.
  - vm_compute. reflexivity.
  - vm_compute. reflexivity.
Defined.

(** ** Pressing Enter at every prompt *)

Section EnterKeeps.
Context `{Builtins} (u0 : ui) (o : gmap string value).
Hypothesis Hempty : forall n, py_strip (answers u0 n) = "".
Hypothesis Hlower : py_lower "" = "".














Hypothesis Hupper : forall l, l ∈ valid_log_levels -> py_upper l = l.
Hypothesis Hgood : good o = true.










End EnterKeeps.



(** ** The import/export menu *)



